(** * dnd5e item data models and character sheet: migration, derived
      attributes and item aggregation

    A shallow embedding of

    - class [WeaponData]      (weapon item data model),
    - class [EquipmentData]   ([module/data/item/equipment.mjs]),
    - class [ToolData]        ([module/data/item/tool.mjs]),
    - class [ConsumableData]  ([module/data/item/consumable.mjs]),
    - class [ActorSheet5eCharacter], method [_prepareItems] (the player
      character sheet).

    Raw item sources are JavaScript objects, modelled as finite maps from
    property names to JavaScript values; a [static migrateData(source)]
    mutates its argument in place and is modelled as a function from the
    source before the call to the source after it, or to the exception it
    throws. *)

From Stdlib Require Import QArith.
From stdpp Require Import gmap strings list fin_maps sorting.

#[local] Set Warnings "-register-all".
#[local] Open Scope string_scope.
#[local] Open Scope list_scope.

(* ===================================================================== *)
(** * Part I: definitions                                                 *)
(* ===================================================================== *)

(** ** JavaScript values *)

(** A JavaScript number: the three non-finite values, or a finite value
    (kept as a rational; no arithmetic is done on it here, only tests and
    comparisons). *)
Inductive number : Type :=
| NaN
| PosInfinity
| NegInfinity
| Finite (q : Q).

(** Values as they occur in item sources: what JSON can hold, plus
    [undefined]. An array element [None] is a hole, which is what
    [delete arr[i]] leaves behind. *)
Inductive JsVal : Type :=
| JUndefined
| JNull
| JBool (b : bool)
| JNum (n : number)
| JStr (s : string)
| JArr (elems : list (option JsVal))
| JObj (props : gmap string JsVal).

(** The error values a model function can end with. [TypeError] is the
    JavaScript exception. [OutsideModel] marks an operation whose effect
    [JsVal] cannot record (a named property written into an array). *)
Inductive JsError : Type :=
| TypeError
| OutsideModel.

(** Completion of a JavaScript statement sequence: normal, or abrupt by an
    exception. *)
Inductive completion (A : Type) : Type :=
| Normal (a : A)
| Throw (e : JsError).
Arguments Normal {A} a.
Arguments Throw {A} e.

Definition cbind {A B : Type} (c : completion A) (k : A → completion B)
  : completion B :=
  match c with
  | Normal a => k a
  | Throw e => Throw e
  end.

Notation "x ←! c ; k" := (cbind c (fun x => k))
  (at level 100, c at next level, right associativity, only parsing).

(** [typeof v]. *)
Definition typeof (v : JsVal) : string :=
  match v with
  | JUndefined => "undefined"
  | JNull => "object"
  | JBool _ => "boolean"
  | JNum _ => "number"
  | JStr _ => "string"
  | JArr _ => "object"
  | JObj _ => "object"
  end.

(** [typeof v === t] *)
Definition typeof_is (v : JsVal) (t : string) : bool :=
  bool_decide (typeof v = t).

(** [!!v] *)
Definition truthy (v : JsVal) : bool :=
  match v with
  | JUndefined | JNull => false
  | JBool b => b
  | JNum NaN => false
  | JNum (Finite q) => negb (Qeq_bool q 0%Q)
  | JNum _ => true
  | JStr s => negb (bool_decide (s = ""))
  | JArr _ | JObj _ => true
  end.

(** [v === "s"] for a string literal. *)
Definition is_string (v : JsVal) (s : string) : bool :=
  match v with
  | JStr t => bool_decide (t = s)
  | _ => false
  end.

(** [v === null] *)
Definition is_null (v : JsVal) : bool :=
  match v with JNull => true | _ => false end.

(** [v === undefined || v === null], the test behind [??] and [??=]. *)
Definition nullish (v : JsVal) : bool :=
  match v with JUndefined | JNull => true | _ => false end.

(** [Array.isArray(v)] *)
Definition Array_isArray (v : JsVal) : bool :=
  match v with JArr _ => true | _ => false end.

(** [Number(b)] for a boolean. *)
Definition Number_of_bool (b : bool) : number :=
  if b then Finite 1%Q else Finite 0%Q.

(** [Number.isFinite(v)]: no coercion, only numbers qualify. *)
Definition Number_isFinite (v : JsVal) : bool :=
  match v with
  | JNum (Finite _) => true
  | _ => false
  end.

Definition is_NaN (n : number) : bool :=
  match n with NaN => true | _ => false end.

(** [a >= b] on numbers: false as soon as one side is [NaN]. *)
Definition number_ge (a b : number) : bool :=
  match a, b with
  | NaN, _ | _, NaN => false
  | PosInfinity, _ => true
  | _, NegInfinity => true
  | NegInfinity, _ => false
  | _, PosInfinity => false
  | Finite p, Finite q => Qle_bool q p
  end.

(** [a > b] on numbers. *)
Definition number_gt (a b : number) : bool :=
  match a, b with
  | NaN, _ | _, NaN => false
  | NegInfinity, _ => false
  | _, PosInfinity => false
  | PosInfinity, _ => true
  | _, NegInfinity => true
  | Finite p, Finite q => negb (Qle_bool p q)
  end.

(** [Math.max(a, b)] *)
Definition Math_max (a b : number) : number :=
  match a, b with
  | NaN, _ | _, NaN => NaN
  | PosInfinity, _ | _, PosInfinity => PosInfinity
  | NegInfinity, x | x, NegInfinity => x
  | Finite p, Finite q => if Qle_bool p q then Finite q else Finite p
  end.

(** Reading the property [k] of [v], for a name [k] that is neither an
    index, nor [length], nor a member of a built-in prototype ([type],
    [dex], ...). Reading from [null] or [undefined] throws; a primitive or
    an array has no such property. *)
Definition get_prop (v : JsVal) (k : string) : completion JsVal :=
  match v with
  | JUndefined | JNull => Throw TypeError
  | JObj m => Normal (default JUndefined (m !! k))
  | JBool _ | JNum _ | JStr _ | JArr _ => Normal JUndefined
  end.

(** [v.k = x] in strict mode (module code), for a name [k] as above; the
    result is [v] after the assignment. Writing into [null], [undefined] or
    a primitive throws. *)
Definition set_prop (v : JsVal) (k : string) (x : JsVal) : completion JsVal :=
  match v with
  | JObj m => Normal (JObj (<[k:=x]> m))
  | JArr _ => Throw OutsideModel
  | JUndefined | JNull | JBool _ | JNum _ | JStr _ => Throw TypeError
  end.

(** [arr[0]] *)
Definition first_element (elems : list (option JsVal)) : JsVal :=
  match elems with
  | Some v :: _ => v
  | _ => JUndefined
  end.

(** ** What the host provides

    Functions of the language runtime and of the Foundry client that the
    code calls and whose text is not part of the system. *)
Record Host : Type := {
  (** [Number(s)] / [+s] on a string: ECMAScript [StringToNumber]. *)
  StringToNumber : string → number;
  (** [`${v}`] *)
  ToString : JsVal → string;
  (** [game.i18n.localize(key)] *)
  localize : string → string;
  (** [game.i18n.format(key, data)] *)
  format : string → list (string * string) → string;
  (** [name.slugify({strict: true})] *)
  slugify : string → string;
}.

(** [+v] for the values of [JsVal]. A plain object converts through the
    string ["[object Object]"], an array through the join of its elements;
    the only caller excludes arrays beforehand. *)
Definition ToNumber (host : Host) (v : JsVal) : number :=
  match v with
  | JUndefined => NaN
  | JNull => Finite 0%Q
  | JBool b => Number_of_bool b
  | JNum n => n
  | JStr s => StringToNumber host s
  | JArr _ => NaN
  | JObj _ => NaN
  end.

(** Foundry's [Number.isNumeric(n)]:

    [if ( n instanceof Array ) return false;
     else if ( [null, ""].includes(n) ) return false;
     return +n === +n;] *)
Definition Number_isNumeric (host : Host) (n : JsVal) : bool :=
  if Array_isArray n then false
  else if is_null n || is_string n "" then false
  else negb (is_NaN (ToNumber host n)).

(** [Number(v)] *)
Definition Number_ (host : Host) (v : JsVal) : number := ToNumber host v.

(** ** Property enumeration and deletion *)

(** An own property key: an array or string index, or a name. *)
Inductive PropertyKey : Type :=
| Index (i : nat)
| Name (k : string).

(** The characters of a string, each as a one-character string value. *)
Fixpoint characters (s : string) : list JsVal :=
  match s with
  | EmptyString => []
  | String c rest => JStr (String c EmptyString) :: characters rest
  end.

(** The present elements of an array with their indices, from index
    [start] on: holes are skipped. *)
Fixpoint array_entries (start : nat) (elems : list (option JsVal))
  : list (PropertyKey * JsVal) :=
  match elems with
  | [] => []
  | Some v :: rest => (Index start, v) :: array_entries (S start) rest
  | None :: rest => array_entries (S start) rest
  end.

(** [Object.entries(v)]: the own enumerable string-keyed properties of
    [ToObject(v)]. The entries of a plain object come in the order of the
    map's enumeration, which is not JavaScript's insertion order; the one
    loop below does not depend on the order. *)
Definition Object_entries (v : JsVal) : completion (list (PropertyKey * JsVal)) :=
  match v with
  | JUndefined | JNull => Throw TypeError
  | JBool _ | JNum _ => Normal []
  | JStr s => Normal (imap (λ i c, (Index i, c)) (characters s))
  | JArr elems => Normal (array_entries 0 elems)
  | JObj props => Normal ((λ kv, (Name kv.1, kv.2)) <$> map_to_list props)
  end.

(** [delete v[key]] in strict mode, for a key that [Object_entries v]
    lists; the result is [v] after the deletion. An index of a primitive
    string is a non-configurable property, so its deletion throws. *)
Definition delete_prop (v : JsVal) (key : PropertyKey) : completion JsVal :=
  match v, key with
  | JUndefined, _ | JNull, _ => Throw TypeError
  | JObj props, Name k => Normal (JObj (delete k props))
  | JArr elems, Index i => Normal (JArr (<[i:=None]> elems))
  | JStr s, Index i =>
      if bool_decide (i < String.length s)%nat then Throw TypeError else Normal v
  | JStr _, Name _ | JBool _, _ | JNum _, _ => Normal v
  | JObj _, Index _ | JArr _, Name _ => Throw OutsideModel
  end.

(** [for ( const x of l ) body], threading the mutated state. *)
Fixpoint for_of {A S : Type} (body : A → S → completion S) (l : list A) (s : S)
  : completion S :=
  match l with
  | [] => Normal s
  | x :: rest => s' ←! body x s; for_of body rest s'
  end.

(** ** Configuration, actors and owning documents *)

(** The tables of [CONFIG.DND5E] that the code reads, each by its own
    entries. *)
Record Config : Type := {
  (** [CONFIG.DND5E.weaponProficienciesMap] *)
  weaponProficienciesMap : gmap string JsVal;
  (** [CONFIG.DND5E.armorProficienciesMap] *)
  armorProficienciesMap : gmap string JsVal;
  (** [CONFIG.DND5E.weaponTypes] *)
  weaponTypes : gmap string string;
  (** [CONFIG.DND5E.equipmentTypes] *)
  equipmentTypes : gmap string string;
  (** [CONFIG.DND5E.consumableTypes] *)
  consumableTypes : gmap string string;
  (** [CONFIG.DND5E.abilities[key].label] *)
  abilityLabels : gmap string string;
  (** [CONFIG.DND5E.maxLevel] *)
  maxLevel : Z;
  (** [CONFIG.Item.typeLabels] *)
  typeLabels : gmap string string;
}.

(** The property names that every plain object inherits from
    [Object.prototype]. *)
Definition Object_prototype_names : list string :=
  ["constructor"; "hasOwnProperty"; "isPrototypeOf"; "propertyIsEnumerable";
   "toLocaleString"; "toString"; "valueOf"; "__proto__";
   "__defineGetter__"; "__defineSetter__"; "__lookupGetter__";
   "__lookupSetter__"].

(** What a property read can yield: a value of [JsVal], or the member
    [name] of [Object.prototype] (a built-in function; for [__proto__] the
    prototype object itself), which [JsVal] does not hold. *)
Inductive PropertyValue : Type :=
| Value (v : JsVal)
| Inherited (name : string).

(** [table[key]] of a table of strings, which is a plain object: the
    table's own entry; without one, the member of [Object.prototype] that
    [key] names; [undefined] when it names none. *)
Definition table_get (table : gmap string string) (key : string)
  : PropertyValue :=
  match table !! key with
  | Some label => Value (JStr label)
  | None =>
      if bool_decide (key ∈ Object_prototype_names) then Inherited key
      else Value JUndefined
  end.

(** One entry of [actor.system.abilities]. *)
Record AbilityData : Type := {
  (** [mod], when it is there *)
  ability_mod : option number;
}.

(** One entry of [actor.system.tools]. *)
Record ToolProficiency : Type := {
  (** [value], when it is there *)
  tool_value : option number;
}.

(** An [Actor5e], as far as the item data models read it. *)
Record Actor5e : Type := {
  (** [actor.type] *)
  actor_type : string;
  (** [actor.system.abilities] *)
  actor_abilities : option (gmap string AbilityData);
  (** [actor.system.traits?.weaponProf?.value] *)
  actor_weaponProf : option (gset string);
  (** [actor.system.traits?.armorProf?.value] *)
  actor_armorProf : option (gset string);
  (** [actor.system.tools] *)
  actor_tools : option (gmap string ToolProficiency);
  (** [actor.flags.dnd5e], read through [actor.getFlag("dnd5e", key)] *)
  actor_flags : gmap string JsVal;
}.

(** [actor.getFlag("dnd5e", key)] *)
Definition getFlag (actor : Actor5e) (key : string) : JsVal :=
  default JUndefined (actor_flags actor !! key).

(** [profs.has(v)] on a set of strings: only a string can be a member. *)
Definition Set_has (profs : gset string) (v : JsVal) : bool :=
  match v with
  | JStr s => bool_decide (s ∈ profs)
  | _ => false
  end.

(** [v === true] *)
Definition is_true (v : JsVal) : bool :=
  match v with JBool true => true | _ => false end.

(** [x ?? 0] on an optional number. *)
Definition or_zero (x : option number) : number := default (Finite 0%Q) x.

(** The [Item5e] document owning a system data model ([this.parent]), as
    far as the getters read it. *)
Record Item5e : Type := {
  (** [this.parent.actor]: the owning actor, [None] for an unowned item *)
  item_actor : option Actor5e;
  (** [this.parent.labels], then its entries *)
  item_labels : option (gmap string string);
}.

(** ** Migration *)

Inductive ItemKind : Type := weapon | equipment | tool | consumable.

(** [source.k] on a source object: [undefined] when the key is absent. *)
Definition field (source : gmap string JsVal) (k : string) : JsVal :=
  default JUndefined (source !! k).

Module WeaponData.

(** The body of the loop of [#migratePropertiesData]:
    [if ( typeof value !== "boolean" ) delete source.properties[key];] *)
Definition delete_unless_boolean (entry : PropertyKey * JsVal)
    (properties : JsVal) : completion JsVal :=
  let '(key, value) := entry in
  if negb (typeof_is value "boolean") then delete_prop properties key
  else Normal properties.

(** [static #migratePropertiesData(source)] *)
Definition migratePropertiesData (source : gmap string JsVal)
  : completion (gmap string JsVal) :=
  let properties := field source "properties" in
  if negb (truthy properties) then Normal source
  else
    entries ←! Object_entries properties;
    properties' ←! for_of delete_unless_boolean entries properties;
    Normal (<["properties" := properties']> source).

(** [static #migrateProficient(source)] *)
Definition migrateProficient (host : Host) (source : gmap string JsVal)
  : gmap string JsVal :=
  if typeof_is (field source "proficient") "boolean"
  then <["proficient" := JNum (Number_ host (field source "proficient"))]> source
  else source.

(** [static #migrateWeaponType(source)] *)
Definition migrateWeaponType (source : gmap string JsVal) : gmap string JsVal :=
  if is_null (field source "weaponType")
  then <["weaponType" := JStr "simpleM"]> source
  else source.

(** [static migrateData(source)]; [inherited] is [super.migrateData],
    the migrations of the mixed-in templates. *)
Definition migrateData (host : Host)
    (inherited : gmap string JsVal → gmap string JsVal)
    (source : gmap string JsVal) : completion (gmap string JsVal) :=
  let source := inherited source in
  source ←! migratePropertiesData source;
  let source := migrateProficient host source in
  let source := migrateWeaponType source in
  Normal source.

(** The validated fields of a weapon that the getters read, typed as
    [defineSchema] declares them: [proficient] is a nullable number
    field ([None] is [null]), [properties] maps names to booleans. *)
Record data : Type := {
  weaponType : string;
  baseItem : string;
  properties : gmap string bool;
  proficient : option number;
  parent : Item5e;
}.

(** [get chatProperties()] *)
Definition chatProperties (cfg : Config) (this : data) : list PropertyValue :=
  [table_get (weaponTypes cfg) (weaponType this)].

(** [get _typeAbilityMod()]: an ability key, or [None] for [null]. *)
Definition _typeAbilityMod (this : data) : option string :=
  if bool_decide (weaponType this ∈ ["simpleR"; "martialR"]) then Some "dex"
  else
    let abilities := item_actor (parent this) ≫= actor_abilities in
    match properties this !! "fin", abilities with
    | Some true, Some abilities =>
        if number_ge (or_zero (abilities !! "dex" ≫= ability_mod))
                     (or_zero (abilities !! "str" ≫= ability_mod))
        then Some "dex" else Some "str"
    | _, _ => None
    end.

(** [get proficiencyMultiplier()] *)
Definition proficiencyMultiplier (cfg : Config) (this : data) : number :=
  match proficient this with
  | Some (Finite q) => Finite q
  | _ =>
    match item_actor (parent this) with
    | None => Finite 0%Q
    | Some actor =>
      if bool_decide (actor_type actor = "npc") then Finite 1%Q
      else
        let config := weaponProficienciesMap cfg in
        let itemProf := default JUndefined (config !! weaponType this) in
        let actorProfs := default ∅ (actor_weaponProf actor) in
        let natural := bool_decide (weaponType this = "natural") in
        let improvised :=
          bool_decide (weaponType this = "improv")
          && truthy (getFlag actor "tavernBrawlerFeat") in
        let isProficient :=
          natural || improvised || Set_has actorProfs itemProf
          || Set_has actorProfs (JStr (baseItem this)) in
        Number_of_bool isProficient
    end
  end.

End WeaponData.

Module EquipmentData.

(** [static #migrateArmor(source)] *)
Definition migrateArmor (host : Host) (source : gmap string JsVal)
  : completion (gmap string JsVal) :=
  match source !! "armor" with
  | None => Normal source
  | Some armor0 =>
      let armor := if nullish armor0 then JObj ∅ else armor0 in
      ty ←! get_prop armor "type";
      armor ←! (if is_string ty "bonus"
                then set_prop armor "type" (JStr "trinket")
                else Normal armor);
      dex ←! get_prop armor "dex";
      armor ←! (if typeof_is dex "string" then
                  if is_string dex "" then set_prop armor "dex" JNull
                  else if Number_isNumeric host dex
                       then set_prop armor "dex" (JNum (Number_ host dex))
                       else Normal armor
                else Normal armor);
      Normal (<["armor" := armor]> source)
  end.

(** [static #migrateStrength(source)] *)
Definition migrateStrength (host : Host) (source : gmap string JsVal)
  : gmap string JsVal :=
  if negb (typeof_is (field source "strength") "string") then source
  else
    let source :=
      if is_string (field source "strength") ""
      then <["strength" := JNull]> source else source in
    if Number_isNumeric host (field source "strength")
    then <["strength" := JNum (Number_ host (field source "strength"))]> source
    else source.

(** [static #migrateProficient(source)] *)
Definition migrateProficient (host : Host) (source : gmap string JsVal)
  : gmap string JsVal :=
  if typeof_is (field source "proficient") "boolean"
  then <["proficient" := JNum (Number_ host (field source "proficient"))]> source
  else source.

(** [static migrateData(source)] *)
Definition migrateData (host : Host)
    (inherited : gmap string JsVal → gmap string JsVal)
    (source : gmap string JsVal) : completion (gmap string JsVal) :=
  let source := inherited source in
  source ←! migrateArmor host source;
  let source := migrateStrength host source in
  let source := migrateProficient host source in
  Normal source.

(** The validated fields of a piece of equipment that the getters
    read. *)
Record data : Type := {
  armor_type : string;
  baseItem : string;
  stealth : bool;
  proficient : option number;
  parent : Item5e;
}.

(** [get chatProperties()] *)
Definition chatProperties (host : Host) (cfg : Config) (this : data)
  : list PropertyValue :=
  [ table_get (equipmentTypes cfg) (armor_type this);
    Value (from_option JStr JNull (item_labels (parent this) ≫= (.!! "armor")));
    Value (if stealth this then JStr (localize host "DND5E.StealthDisadvantage")
           else JNull) ].

(** [get proficiencyMultiplier()] *)
Definition proficiencyMultiplier (cfg : Config) (this : data) : number :=
  match proficient this with
  | Some (Finite q) => Finite q
  | _ =>
    match item_actor (parent this) with
    | None => Finite 0%Q
    | Some actor =>
      if bool_decide (actor_type actor = "npc") then Finite 1%Q
      else
        let config := armorProficienciesMap cfg in
        let itemProf := default JUndefined (config !! armor_type this) in
        let actorProfs := default ∅ (actor_armorProf actor) in
        let isProficient :=
          is_true itemProf || Set_has actorProfs itemProf
          || Set_has actorProfs (JStr (baseItem this)) in
        Number_of_bool isProficient
    end
  end.

End EquipmentData.

Module ToolData.

(** [static #migrateAbility(source)] *)
Definition migrateAbility (source : gmap string JsVal) : gmap string JsVal :=
  match field source "ability" with
  | JArr elems => <["ability" := first_element elems]> source
  | _ => source
  end.

(** [static migrateData(source)] *)
Definition migrateData
    (inherited : gmap string JsVal → gmap string JsVal)
    (source : gmap string JsVal) : completion (gmap string JsVal) :=
  let source := inherited source in
  let source := migrateAbility source in
  Normal source.

(** The validated fields of a tool that the getters read. *)
Record data : Type := {
  toolType : string;
  baseItem : string;
  ability : string;
  proficient : option number;
  parent : Item5e;
}.

(** [get chatProperties()]: [CONFIG.DND5E.abilities[this.ability]?.label].
    Only an entry of the table itself has a [label]: a member of
    [Object.prototype] that the ability key may name has none, so the read
    gives [undefined] there as well. *)
Definition chatProperties (cfg : Config) (this : data) : list PropertyValue :=
  [Value (from_option JStr JUndefined (abilityLabels cfg !! ability this))].

(** [get proficiencyMultiplier()] *)
Definition proficiencyMultiplier (this : data) : number :=
  match proficient this with
  | Some (Finite q) => Finite q
  | _ =>
    match item_actor (parent this) with
    | None => Finite 0%Q
    | Some actor =>
      if bool_decide (actor_type actor = "npc") then Finite 1%Q
      else
        let baseItemProf := actor_tools actor ≫= (.!! baseItem this) in
        let categoryProf := actor_tools actor ≫= (.!! toolType this) in
        Math_max (or_zero (baseItemProf ≫= tool_value))
                 (or_zero (categoryProf ≫= tool_value))
    end
  end.

End ToolData.

Module ConsumableData.

(** [ConsumableData] declares no [migrateData]: the inherited one runs. *)
Definition migrateData
    (inherited : gmap string JsVal → gmap string JsVal)
    (source : gmap string JsVal) : completion (gmap string JsVal) :=
  Normal (inherited source).

(** The validated fields of a consumable that the getters read. The
    schema has no [proficient] field. [hasLimitedUses] is a getter of
    the mixed-in activated-effect template. *)
Record data : Type := {
  consumableType : string;
  uses_value : JsVal;
  uses_max : JsVal;
  hasLimitedUses : bool;
  parent : Item5e;
}.

(** [get chatProperties()] *)
Definition chatProperties (host : Host) (cfg : Config) (this : data)
  : list PropertyValue :=
  [ table_get (consumableTypes cfg) (consumableType this);
    Value (if hasLimitedUses this
           then JStr (ToString host (uses_value this) +:+ "/"
                      +:+ ToString host (uses_max this) +:+ " "
                      +:+ localize host "DND5E.Charges")
           else JNull) ].

(** [get proficiencyMultiplier()] *)
Definition proficiencyMultiplier (this : data) : number :=
  let isProficient :=
    from_option (λ actor, getFlag actor "tavernBrawlerFeat") JUndefined
                (item_actor (parent this)) in
  if truthy isProficient then Finite 1%Q else Finite 0%Q.

End ConsumableData.

(** [migrate(kind, rawRecord)]: the kind's [migrateData], given the
    inherited template migrations of each kind. *)
Definition migrate (host : Host)
    (inherited : ItemKind → gmap string JsVal → gmap string JsVal)
    (k : ItemKind) (source : gmap string JsVal) : completion (gmap string JsVal) :=
  match k with
  | weapon => WeaponData.migrateData host (inherited weapon) source
  | equipment => EquipmentData.migrateData host (inherited equipment) source
  | tool => ToolData.migrateData (inherited tool) source
  | consumable => ConsumableData.migrateData (inherited consumable) source
  end.

(** ** Items of any of the four kinds *)

Inductive ItemData : Type :=
| WeaponItem (w : WeaponData.data)
| EquipmentItem (e : EquipmentData.data)
| ToolItem (t : ToolData.data)
| ConsumableItem (c : ConsumableData.data).

Definition kind_of (it : ItemData) : ItemKind :=
  match it with
  | WeaponItem _ => weapon
  | EquipmentItem _ => equipment
  | ToolItem _ => tool
  | ConsumableItem _ => consumable
  end.

(** [item.system.proficiencyMultiplier] *)
Definition proficiencyMultiplier (cfg : Config) (it : ItemData) : number :=
  match it with
  | WeaponItem w => WeaponData.proficiencyMultiplier cfg w
  | EquipmentItem e => EquipmentData.proficiencyMultiplier cfg e
  | ToolItem t => ToolData.proficiencyMultiplier t
  | ConsumableItem c => ConsumableData.proficiencyMultiplier c
  end.

(** [item.system.chatProperties] *)
Definition chatProperties (host : Host) (cfg : Config) (it : ItemData)
  : list PropertyValue :=
  match it with
  | WeaponItem w => WeaponData.chatProperties cfg w
  | EquipmentItem e => EquipmentData.chatProperties host cfg e
  | ToolItem t => ToolData.chatProperties cfg t
  | ConsumableItem c => ConsumableData.chatProperties host cfg c
  end.

(** The item's [proficient] field; a consumable has none. *)
Definition proficient_field (it : ItemData) : option (option number) :=
  match it with
  | WeaponItem w => Some (WeaponData.proficient w)
  | EquipmentItem e => Some (EquipmentData.proficient e)
  | ToolItem t => Some (ToolData.proficient t)
  | ConsumableItem _ => None
  end.

(** The per-item proficiency override: the [proficient] field when it
    holds a finite number. *)
Definition proficiency_override (it : ItemData) : option Q :=
  match proficient_field it with
  | Some (Some (Finite q)) => Some q
  | _ => None
  end.

Definition parent_of (it : ItemData) : Item5e :=
  match it with
  | WeaponItem w => WeaponData.parent w
  | EquipmentItem e => EquipmentData.parent e
  | ToolItem t => ToolData.parent t
  | ConsumableItem c => ConsumableData.parent c
  end.

(** The owning actor, if any. *)
Definition owner (it : ItemData) : option Actor5e := item_actor (parent_of it).

(** The same item data under another owning document. *)
Definition with_parent (p : Item5e) (it : ItemData) : ItemData :=
  match it with
  | WeaponItem w =>
      WeaponItem
        {| WeaponData.weaponType := WeaponData.weaponType w;
           WeaponData.baseItem := WeaponData.baseItem w;
           WeaponData.properties := WeaponData.properties w;
           WeaponData.proficient := WeaponData.proficient w;
           WeaponData.parent := p |}
  | EquipmentItem e =>
      EquipmentItem
        {| EquipmentData.armor_type := EquipmentData.armor_type e;
           EquipmentData.baseItem := EquipmentData.baseItem e;
           EquipmentData.stealth := EquipmentData.stealth e;
           EquipmentData.proficient := EquipmentData.proficient e;
           EquipmentData.parent := p |}
  | ToolItem t =>
      ToolItem
        {| ToolData.toolType := ToolData.toolType t;
           ToolData.baseItem := ToolData.baseItem t;
           ToolData.ability := ToolData.ability t;
           ToolData.proficient := ToolData.proficient t;
           ToolData.parent := p |}
  | ConsumableItem c =>
      ConsumableItem
        {| ConsumableData.consumableType := ConsumableData.consumableType c;
           ConsumableData.uses_value := ConsumableData.uses_value c;
           ConsumableData.uses_max := ConsumableData.uses_max c;
           ConsumableData.hasLimitedUses := ConsumableData.hasLimitedUses c;
           ConsumableData.parent := p |}
  end.

(** ** The player character sheet: [_prepareItems] *)

Module ActorSheet5eCharacter.

(** An owned item document, as far as the bucket logic of
    [_prepareItems] reads it. *)
Record item : Type := {
  id : string;
  name : string;
  type : string;
  (** [system.levels] (class items) *)
  levels : Z;
  (** [system.identifier] *)
  identifier : string;
  (** [system.classIdentifier] (subclass items) *)
  classIdentifier : string;
  (** [system.activation?.type] *)
  activation_type : JsVal;
}.

(** One entry of [ctx.availableLevels]. *)
Record LevelOption : Type := {
  level : Z;
  delta : Z;
  disabled : bool;
}.

(** One entry of [context.warnings]. *)
Record Warning : Type := {
  message : string;
  warning_type : string;
}.

(** One section of [context.inventory] or [context.features]. *)
Record Bucket : Type := {
  label : string;
  items : list item;
  hasActions : bool;
  dataset : list (string * string);
  isClass : bool;
}.

(** The sheet instance ([this]), as far as [_prepareItems] reads it. *)
Record sheet : Type := {
  (** [this.actor.system.details.level] *)
  actor_level : Z;
  (** [this._filters.inventory], [.spellbook], [.features]: the active
      predicates of each partition *)
  filters_inventory : list (item → bool);
  filters_spellbook : list (item → bool);
  filters_features : list (item → bool);
}.

(** What [_prepareItems] leaves in [context], without the spellbook and
    the per-item display flags and weights. *)
Record Context : Type := {
  inventory : list Bucket;
  features : list Bucket;
  warnings : list Warning;
  (** [context.itemContext[id].availableLevels] *)
  availableLevels : gmap string (list LevelOption);
  (** [context.labels.background] *)
  background_label : option string;
}.

(** Modelled from the spec: [_filterItems] is a method of the base actor
    sheet, which is not among the files at hand. Section 4.4, step 2: a
    partition is run through a conjunction of named boolean predicates
    supplied by the caller, an item survives only if all active
    predicates accept it. *)
Definition _filterItems (l : list item) (filters : list (item → bool))
  : list item :=
  filter (λ i, forallb (λ p, p i) filters = true) l.

(** Foundry's [Array.fromRange(n)]: [0, 1, ..., n - 1]. *)
Definition Array_fromRange (n : Z) : list Z :=
  Z.of_nat <$> seq 0 (Z.to_nat n).

(** [arr.slice(1)] *)
Definition slice1 {A : Type} (l : list A) : list A := drop 1 l.

(** Foundry's [arr.findSplice(find)]: the first element satisfying
    [find], removed from the array; [None] and the array unchanged when
    there is none. *)
Fixpoint findSplice {A : Type} (find : A → bool) (l : list A)
  : option A * list A :=
  match l with
  | [] => (None, [])
  | x :: rest =>
      if find x then (Some x, rest)
      else let '(found, rest') := findSplice find rest in (found, x :: rest')
  end.

(** [classes.sort((a, b) => b.system.levels - a.system.levels)]: a
    stable sort, by insertion. [c] stays in front of the first [d] the
    comparator does not put before it. *)
Fixpoint insert_class (c : item) (sorted : list item) : list item :=
  match sorted with
  | [] => [c]
  | d :: rest =>
      if (levels d - levels c <=? 0)%Z then c :: d :: rest
      else d :: insert_class c rest
  end.

Definition sort_classes (classes : list item) : list item :=
  foldr insert_class [] classes.

(** The six partitions built by the first [reduce]. *)
Record Partition : Type := {
  p_items : list item;
  p_spells : list item;
  p_feats : list item;
  p_backgrounds : list item;
  p_classes : list item;
  p_subclasses : list item;
}.

Definition inventory_types : list string :=
  ["weapon"; "equipment"; "consumable"; "tool"; "backpack"; "loot"].

(** The classification at the end of the partition callback. *)
Definition classify (obj : Partition) (i : item) : Partition :=
  let '{| p_items := its; p_spells := sp; p_feats := fe;
          p_backgrounds := bg; p_classes := cl; p_subclasses := sc |} := obj in
  if bool_decide (type i = "spell") then
    {| p_items := its; p_spells := sp ++ [i]; p_feats := fe;
       p_backgrounds := bg; p_classes := cl; p_subclasses := sc |}
  else if bool_decide (type i = "feat") then
    {| p_items := its; p_spells := sp; p_feats := fe ++ [i];
       p_backgrounds := bg; p_classes := cl; p_subclasses := sc |}
  else if bool_decide (type i = "background") then
    {| p_items := its; p_spells := sp; p_feats := fe;
       p_backgrounds := bg ++ [i]; p_classes := cl; p_subclasses := sc |}
  else if bool_decide (type i = "class") then
    {| p_items := its; p_spells := sp; p_feats := fe;
       p_backgrounds := bg; p_classes := cl ++ [i]; p_subclasses := sc |}
  else if bool_decide (type i = "subclass") then
    {| p_items := its; p_spells := sp; p_feats := fe;
       p_backgrounds := bg; p_classes := cl; p_subclasses := sc ++ [i] |}
  else if bool_decide (type i ∈ inventory_types) then
    {| p_items := its ++ [i]; p_spells := sp; p_feats := fe;
       p_backgrounds := bg; p_classes := cl; p_subclasses := sc |}
  else obj.

Definition partition_items (l : list item) : Partition :=
  foldl classify
    {| p_items := []; p_spells := []; p_feats := []; p_backgrounds := [];
       p_classes := []; p_subclasses := [] |} l.

(** The level options of one class item:
    [Array.fromRange(maxLevel + 1).slice(1).map(level => ...)]. *)
Definition level_options (cfg : Config) (this : sheet) (cls : item)
  : list LevelOption :=
  let maxLevelDelta := (maxLevel cfg - actor_level this)%Z in
  (λ level,
     let delta := (level - levels cls)%Z in
     {| level := level; delta := delta;
        disabled := bool_decide (delta > maxLevelDelta)%Z |})
  <$> slice1 (Array_fromRange (maxLevel cfg + 1)).

(** The callback of the second [reduce]; the state is [arr], the
    subclasses not yet matched, and the level options recorded so far. *)
Definition pair_class (host : Host) (cfg : Config) (this : sheet)
    (st : list item * list item * gmap string (list LevelOption))
    (cls : item) : list item * list item * gmap string (list LevelOption) :=
  let '(arr, subclasses, ctx) := st in
  let ctx := <[id cls := level_options cfg this cls]> ctx in
  let arr := arr ++ [cls] in
  let identifier :=
    if truthy (JStr (identifier cls)) then identifier cls
    else slugify host (name cls) in
  match findSplice (λ s, bool_decide (classIdentifier s = identifier))
                   subclasses with
  | (Some subclass, subclasses) => (arr ++ [subclass], subclasses, ctx)
  | (None, subclasses) => (arr, subclasses, ctx)
  end.

(** The warning pushed for an unmatched subclass. *)
Definition mismatch_warning (host : Host) (subclass : item) : Warning :=
  {| message := format host "DND5E.SubclassMismatchWarn"
                  [("name", name subclass);
                   ("class", classIdentifier subclass)];
     warning_type := "warning" |}.

Definition inventory_bucket (cfg : Config) (its : list item) (ty : string)
  : Bucket :=
  {| label := default "undefined" (typeLabels cfg !! ty) +:+ "Pl";
     items := filter (λ i, type i = ty) its;
     hasActions := false;
     dataset := [("type", ty)];
     isClass := false |}.

(** [_prepareItems(context)], given [context.items] and
    [context.warnings]. *)
Definition _prepareItems (host : Host) (cfg : Config) (this : sheet)
    (context_items : list item) (context_warnings : list Warning) : Context :=
  let '{| p_items := its; p_spells := spells; p_feats := feats;
          p_backgrounds := backgrounds; p_classes := classes;
          p_subclasses := subclasses |} := partition_items context_items in
  let its := _filterItems its (filters_inventory this) in
  let spells := _filterItems spells (filters_spellbook this) in
  let feats := _filterItems feats (filters_features this) in
  let classes := sort_classes classes in
  let '(classes, subclasses, ctx) :=
    foldl (pair_class host cfg this) ([], subclasses, ∅) classes in
  let feats := feats ++ subclasses in
  let warnings := context_warnings ++ (mismatch_warning host <$> subclasses) in
  {| inventory := inventory_bucket cfg its <$> inventory_types;
     features :=
       [ {| label := default "undefined" (typeLabels cfg !! "background");
            items := backgrounds; hasActions := false;
            dataset := [("type", "background")]; isClass := false |};
         {| label := default "undefined" (typeLabels cfg !! "class") +:+ "Pl";
            items := classes; hasActions := false;
            dataset := [("type", "class")]; isClass := true |};
         {| label := "DND5E.FeatureActive";
            items := filter (λ f, truthy (activation_type f) = true) feats;
            hasActions := true;
            dataset := [("type", "feat"); ("activation.type", "action")];
            isClass := false |};
         {| label := "DND5E.FeaturePassive";
            items := filter (λ f, truthy (activation_type f) = false) feats;
            hasActions := false;
            dataset := [("type", "feat")]; isClass := false |} ];
     warnings := warnings;
     availableLevels := ctx;
     background_label := name <$> head backgrounds |}.

End ActorSheet5eCharacter.

(** ** A concrete host and configuration for closed examples *)

Module Sample.

Definition digit_value (c : Ascii.ascii) : option N :=
  let n := Ascii.N_of_ascii c in
  if ((48 <=? n) && (n <=? 57))%N then Some (n - 48)%N else None.

Fixpoint digits_value (acc : N) (s : string) : option N :=
  match s with
  | EmptyString => Some acc
  | String c rest =>
      match digit_value c with
      | Some d => digits_value (10 * acc + d)%N rest
      | None => None
      end
  end.

(** [StringToNumber] on the strings used in the examples: the empty
    string is [0], a string of decimal digits is its value, and a string
    with any other character (["abc"]) is [NaN]. Signs, fractions,
    exponents, radix prefixes and white space are left out. *)
Definition decimal_to_number (s : string) : number :=
  match digits_value 0 s with
  | Some n => Finite (inject_Z (Z.of_N n))
  | None => NaN
  end.

(** [`${v}`] on strings, [null], [undefined] and booleans; numbers and
    objects do not occur in the examples. *)
Definition to_string (v : JsVal) : string :=
  match v with
  | JStr s => s
  | JNull => "null"
  | JUndefined => "undefined"
  | JBool true => "true"
  | JBool false => "false"
  | JNum NaN => "NaN"
  | JNum PosInfinity => "Infinity"
  | JNum NegInfinity => "-Infinity"
  | JNum (Finite _) => "<number>"
  | JArr _ => "<array>"
  | JObj _ => "[object Object]"
  end.

(** A host without translations: [localize] returns the key, [format]
    the key followed by the data it was given. *)
Definition host : Host :=
  {| StringToNumber := decimal_to_number;
     ToString := to_string;
     localize := λ key, key;
     format := λ key data,
       foldl (λ acc kv, acc +:+ " " +:+ kv.1 +:+ "=" +:+ kv.2) key data;
     slugify := λ s, s |}.

(** An excerpt of [CONFIG.DND5E]. *)
Definition config : Config :=
  {| weaponProficienciesMap :=
       {[ "simpleM" := JStr "sim"; "simpleR" := JStr "sim";
          "martialM" := JStr "mar"; "martialR" := JStr "mar" ]};
     armorProficienciesMap :=
       {[ "natural" := JBool true; "clothing" := JBool true;
          "light" := JStr "lgt"; "medium" := JStr "med";
          "heavy" := JStr "hvy"; "shield" := JStr "shl" ]};
     weaponTypes := {[ "simpleM" := "DND5E.WeaponSimpleM" ]};
     equipmentTypes := {[ "light" := "DND5E.EquipmentLight" ]};
     consumableTypes := {[ "potion" := "DND5E.ConsumablePotion" ]};
     abilityLabels := {[ "str" := "DND5E.AbilityStr" ]};
     maxLevel := 20;
     typeLabels := ∅ |}.

(** No inherited migration has anything to do. *)
Definition inherited_idle (k : ItemKind) (source : gmap string JsVal)
  : gmap string JsVal := source.

(** A player character without any proficiency, and a non-player
    character. *)
Definition character : Actor5e :=
  {| actor_type := "character"; actor_abilities := None;
     actor_weaponProf := Some ∅; actor_armorProf := Some ∅;
     actor_tools := Some ∅; actor_flags := ∅ |}.

Definition npc : Actor5e :=
  {| actor_type := "npc"; actor_abilities := None;
     actor_weaponProf := None; actor_armorProf := None;
     actor_tools := None; actor_flags := ∅ |}.

Definition owned_by (actor : Actor5e) : Item5e :=
  {| item_actor := Some actor; item_labels := None |}.

Definition unowned : Item5e :=
  {| item_actor := None; item_labels := None |}.

End Sample.

(** ** Definitions used to state and prove the properties *)

(** A migration step that reads and writes the single key [key] of the
    source: [g] maps the old entry (absent: [None]) to the new one. *)
Definition on_key (key : string)
    (g : option JsVal → completion (option JsVal))
    (source : gmap string JsVal) : completion (gmap string JsVal) :=
  o ←! g (source !! key); Normal (partial_alter (λ _, o) key source).

(** [g] changes nothing when run on its own result. *)
Definition settles (g : option JsVal → completion (option JsVal)) : Prop :=
  ∀ o o', g o = Normal o' → g o' = Normal o'.

(** [F] is a step on [key] that settles. *)
Definition key_step (key : string)
    (F : gmap string JsVal → completion (gmap string JsVal)) : Prop :=
  ∃ g, settles g ∧ ∀ source, F source = on_key key g source.

(** An array with every element that is not a boolean deleted. *)
Definition blank_non_boolean (elems : list (option JsVal)) : list (option JsVal) :=
  (λ e, e ≫= λ v, if typeof_is v "boolean" then Some v else None) <$> elems.


(** The source's [ability] is an array whose first element is an array
    again. *)
Definition ability_nested (source : gmap string JsVal) : bool :=
  match field source "ability" with
  | JArr elems => Array_isArray (first_element elems)
  | _ => false
  end.

(** The source's [properties] is a non-empty string. *)
Definition properties_text (source : gmap string JsVal) : bool :=
  typeof_is (field source "properties") "string"
  && truthy (field source "properties").

(** What the equipment migration makes of an optional numeric field: the
    empty string becomes [null], a numeric string its number, anything
    else stays. *)
Definition coerce_numeric (host : Host) (v : JsVal) : JsVal :=
  match v with
  | JStr t =>
      if bool_decide (t = "") then JNull
      else if is_NaN (StringToNumber host t) then JStr t
      else JNum (StringToNumber host t)
  | _ => v
  end.

(** What [#migrateArmor] does to an [armor] that is an object: the
    deprecated type is renamed, ... *)
Definition renamed_type (armor : gmap string JsVal) : gmap string JsVal :=
  if is_string (default JUndefined (armor !! "type")) "bonus"
  then <["type" := JStr "trinket"]> armor else armor.

(** ... and a string [dex] is coerced. *)
Definition coerced_dex (host : Host) (armor : gmap string JsVal)
  : gmap string JsVal :=
  let dex := default JUndefined (armor !! "dex") in
  if typeof_is dex "string" then
    if is_string dex "" then <["dex" := JNull]> armor
    else if Number_isNumeric host dex
         then <["dex" := JNum (Number_ host dex)]> armor
         else armor
  else armor.

(** What [#migrateArmor] leaves in [source.armor]: an empty object for
    [null] or [undefined], the migrated object for an object, and any
    other value as it was. *)
Definition settled_armor (host : Host) (armor0 : JsVal) : JsVal :=
  match armor0 with
  | JUndefined | JNull => JObj ∅
  | JObj armor => JObj (coerced_dex host (renamed_type armor))
  | JBool _ | JNum _ | JStr _ | JArr _ => armor0
  end.

(** The category-level tag of a weapon or of a piece of equipment: the
    entry of its subtype in the proficiency table. *)
Definition category_tag (cfg : Config) (it : ItemData) : JsVal :=
  match it with
  | WeaponItem w =>
      default JUndefined (weaponProficienciesMap cfg !! WeaponData.weaponType w)
  | EquipmentItem e =>
      default JUndefined (armorProficienciesMap cfg !! EquipmentData.armor_type e)
  | ToolItem _ | ConsumableItem _ => JUndefined
  end.

(** The base-item identifier of a weapon or of a piece of equipment. *)
Definition base_item (it : ItemData) : JsVal :=
  match it with
  | WeaponItem w => JStr (WeaponData.baseItem w)
  | EquipmentItem e => JStr (EquipmentData.baseItem e)
  | ToolItem t => JStr (ToolData.baseItem t)
  | ConsumableItem _ => JUndefined
  end.

(** The actor's granted-proficiency tags that apply to the item's kind. *)
Definition granted_tags (actor : Actor5e) (it : ItemData) : gset string :=
  match it with
  | WeaponItem _ => default ∅ (actor_weaponProf actor)
  | EquipmentItem _ => default ∅ (actor_armorProf actor)
  | ToolItem _ | ConsumableItem _ => ∅
  end.

(** The tag lookup: the category-level tag or the base-item identifier is
    among the granted tags. *)
Definition tag_granted (cfg : Config) (actor : Actor5e) (it : ItemData) : bool :=
  Set_has (granted_tags actor it) (category_tag cfg it)
  || Set_has (granted_tags actor it) (base_item it).

(** Proficiency that needs no tag: a natural weapon, an improvised weapon
    in the hands of a tavern brawler, a piece of equipment whose category
    the table marks [true]. *)
Definition always_proficient (cfg : Config) (actor : Actor5e) (it : ItemData)
  : bool :=
  match it with
  | WeaponItem w =>
      bool_decide (WeaponData.weaponType w = "natural")
      || (bool_decide (WeaponData.weaponType w = "improv")
          && truthy (getFlag actor "tavernBrawlerFeat"))
  | EquipmentItem _ => is_true (category_tag cfg it)
  | ToolItem _ | ConsumableItem _ => false
  end.

(** The proficiency level the actor records for a tool key, [0] when
    there is none. *)
Definition tool_level (actor : Actor5e) (key : string) : number :=
  or_zero ((actor_tools actor ≫= (.!! key)) ≫= tool_value).

(** The items of the [n]-th section of [context.features]: [1] is the
    class section, [2] the active and [3] the passive features. *)
Definition feature_items (ctx : ActorSheet5eCharacter.Context) (n : nat)
  : option (list ActorSheet5eCharacter.item) :=
  ActorSheet5eCharacter.items <$> ActorSheet5eCharacter.features ctx !! n.









(** The order of JavaScript numbers: that of the rationals on finite
    numbers, with the two infinities at the ends; [NaN] is not comparable
    with anything, itself included. *)
Inductive number_le : number → number → Prop :=
| le_finite p q : (p <= q)%Q → number_le (Finite p) (Finite q)
| le_from_NegInfinity b : b ≠ NaN → number_le NegInfinity b
| le_to_PosInfinity a : a ≠ NaN → number_le a PosInfinity.

(** The modifier of the ability [key] among the owner's abilities, [0]
    when the ability or its modifier is missing. *)
Definition modifier (abilities : gmap string AbilityData) (key : string)
  : number :=
  or_zero (abilities !! key ≫= ability_mod).


(** An entry whose value is a boolean. *)
Definition boolean_entry (entry : PropertyKey * JsVal) : Prop :=
  typeof_is entry.2 "boolean" = true.

(** One round of the property loop on a plain object, as a map
    operation. *)
Definition drop_key (acc : gmap string JsVal) (kv : string * JsVal)
  : gmap string JsVal :=
  if typeof_is kv.2 "boolean" then acc else delete kv.1 acc.

(** ** Concrete inputs *)

Module Examples.


(** A legacy tool source: [ability] is an array of ability keys. *)
Definition tool_legacy : gmap string JsVal :=
  {[ "ability" := JArr [Some (JStr "str"); Some (JStr "dex")] ]}.

(** A weapon source whose [properties] is a string. *)
Definition weapon_text : gmap string JsVal :=
  {[ "properties" := JStr "abc" ]}.

(** A legacy weapon source: a stale property, a boolean [proficient], a
    [null] weapon type. *)
Definition weapon_legacy : gmap string JsVal :=
  {[ "properties" := JObj {[ "fin" := JBool true; "old" := JStr "legacy" ]};
     "proficient" := JBool true;
     "weaponType" := JNull ]}.

(** An equipment source with text in both optional numeric fields. *)
Definition equipment_text : gmap string JsVal :=
  {[ "armor" := JObj {[ "type" := JStr "light"; "dex" := JStr "abc" ]};
     "strength" := JStr "heavy" ]}.

(** A legacy equipment source. *)
Definition equipment_legacy : gmap string JsVal :=
  {[ "armor" := JObj {[ "type" := JStr "bonus"; "dex" := JStr "" ]};
     "strength" := JStr "15";
     "proficient" := JBool false ]}.

(** A natural weapon without override, owned by [actor]. *)
Definition claws (actor : Actor5e) : ItemData :=
  WeaponItem
    {| WeaponData.weaponType := "natural"; WeaponData.baseItem := "";
       WeaponData.properties := ∅; WeaponData.proficient := None;
       WeaponData.parent := Sample.owned_by actor |}.

(** A finesse weapon with the override [proficient = 1]. *)
Definition rapier (p : Item5e) : WeaponData.data :=
  {| WeaponData.weaponType := "martialM"; WeaponData.baseItem := "rapier";
     WeaponData.properties := {[ "fin" := true ]};
     WeaponData.proficient := Some (Finite 1%Q);
     WeaponData.parent := p |}.

(** A longbow without override. *)
Definition longbow (p : Item5e) : WeaponData.data :=
  {| WeaponData.weaponType := "martialR"; WeaponData.baseItem := "longbow";
     WeaponData.properties := ∅; WeaponData.proficient := None;
     WeaponData.parent := p |}.




(** Thieves' tools without override. *)
Definition thieves_tools (p : Item5e) : ItemData :=
  ToolItem
    {| ToolData.toolType := ""; ToolData.baseItem := "thief";
       ToolData.ability := "dex"; ToolData.proficient := None;
       ToolData.parent := p |}.

(** A potion without limited uses. *)
Definition potion (p : Item5e) : ItemData :=
  ConsumableItem
    {| ConsumableData.consumableType := "potion";
       ConsumableData.uses_value := JNull; ConsumableData.uses_max := JStr "";
       ConsumableData.hasLimitedUses := false;
       ConsumableData.parent := p |}.

(** A player character with expertise in thieves' tools. *)
Definition rogue : Actor5e :=
  {| actor_type := "character"; actor_abilities := None;
     actor_weaponProf := Some ∅; actor_armorProf := Some ∅;
     actor_tools := Some {[ "thief" := {| tool_value := Some (Finite 2%Q) |} ]};
     actor_flags := ∅ |}.

(** A player character whose dexterity modifier is 3 and who has no
    strength entry. *)
Definition duelist : Actor5e :=
  {| actor_type := "character";
     actor_abilities :=
       Some {[ "dex" := {| ability_mod := Some (Finite 3%Q) |} ]};
     actor_weaponProf := Some ∅; actor_armorProf := Some ∅;
     actor_tools := None; actor_flags := ∅ |}.

(** A player character whose strength modifier 4 exceeds the dexterity
    modifier 1. *)
Definition brute : Actor5e :=
  {| actor_type := "character";
     actor_abilities :=
       Some {[ "dex" := {| ability_mod := Some (Finite 1%Q) |};
               "str" := {| ability_mod := Some (Finite 4%Q) |} ]};
     actor_weaponProf := Some ∅; actor_armorProf := Some ∅;
     actor_tools := None; actor_flags := ∅ |}.

(** The classes and subclasses of the pairing example. *)
Definition sheet_item (ty ident nm : string) (lv : Z) (ckey parent_key : string)
  : ActorSheet5eCharacter.item :=
  {| ActorSheet5eCharacter.id := ident;
     ActorSheet5eCharacter.name := nm;
     ActorSheet5eCharacter.type := ty;
     ActorSheet5eCharacter.levels := lv;
     ActorSheet5eCharacter.identifier := ckey;
     ActorSheet5eCharacter.classIdentifier := parent_key;
     ActorSheet5eCharacter.activation_type := JUndefined |}.

Definition class_A := sheet_item "class" "A" "Fighter" 5 "fighter" "".
Definition class_B := sheet_item "class" "B" "Wizard" 3 "wizard" "".
Definition subclass_S1 := sheet_item "subclass" "S1" "Champion" 0 "champion" "fighter".
Definition subclass_S2 := sheet_item "subclass" "S2" "Thief" 0 "thief" "rogue".

(** A class item at level 3. *)
Definition class_at_3 := sheet_item "class" "C" "Cleric" 3 "cleric" "".

(** The sheet of a character whose class levels add up to 15, without
    active filters. *)
Definition sheet_at_15 : ActorSheet5eCharacter.sheet :=
  {| ActorSheet5eCharacter.actor_level := 15;
     ActorSheet5eCharacter.filters_inventory := [];
     ActorSheet5eCharacter.filters_spellbook := [];
     ActorSheet5eCharacter.filters_features := [] |}.

End Examples.

(** ** Definitions for the further properties *)

(** The top-level keys that the own migration steps of a kind read and
    write. *)
Definition own_keys (k : ItemKind) : list string :=
  match k with
  | weapon => ["properties"; "proficient"; "weaponType"]
  | equipment => ["armor"; "strength"; "proficient"]
  | tool => ["ability"]
  | consumable => []
  end.

(** What [#migrateProficient] makes of a [proficient] value. *)
Definition proficient_number (v : JsVal) : JsVal :=
  match v with
  | JBool b => JNum (Number_of_bool b)
  | _ => v
  end.

(** The same item data, owned by [actor]. *)
Definition with_owner (actor : Actor5e) (it : ItemData) : ItemData :=
  with_parent {| item_actor := Some actor;
                 item_labels := item_labels (parent_of it) |} it.

(** The actor after [extra] has been added to its weapon and to its armor
    proficiency tags. *)
Definition with_more_tags (extra : gset string) (actor : Actor5e) : Actor5e :=
  {| actor_type := actor_type actor;
     actor_abilities := actor_abilities actor;
     actor_weaponProf := Some (default ∅ (actor_weaponProf actor) ∪ extra);
     actor_armorProf := Some (default ∅ (actor_armorProf actor) ∪ extra);
     actor_tools := actor_tools actor;
     actor_flags := actor_flags actor |}.

(** *** The sheet *)

(** The identifier a class item is matched by: its [system.identifier],
    or the slug of its name when that is empty. *)
Definition class_key (host : Host) (cls : ActorSheet5eCharacter.item) : string :=
  if truthy (JStr (ActorSheet5eCharacter.identifier cls))
  then ActorSheet5eCharacter.identifier cls
  else slugify host (ActorSheet5eCharacter.name cls).

(** The result of the pairing [reduce] of [_prepareItems] on the items
    [l]: the class section, the subclasses left unmatched, and the level
    options recorded per class id. *)
Definition pair_classes (host : Host) (cfg : Config)
    (this : ActorSheet5eCharacter.sheet) (l : list ActorSheet5eCharacter.item)
  : list ActorSheet5eCharacter.item * list ActorSheet5eCharacter.item
    * gmap string (list ActorSheet5eCharacter.LevelOption) :=
  foldl (ActorSheet5eCharacter.pair_class host cfg this)
    ([], ActorSheet5eCharacter.p_subclasses
           (ActorSheet5eCharacter.partition_items l), ∅)
    (ActorSheet5eCharacter.sort_classes
       (ActorSheet5eCharacter.p_classes
          (ActorSheet5eCharacter.partition_items l))).

(** A class section laid out as blocks: a class, then its subclass if it
    has one. *)
Definition block_items
    (blocks : list (ActorSheet5eCharacter.item
                    * option ActorSheet5eCharacter.item))
  : list ActorSheet5eCharacter.item :=
  blocks ≫= λ b, b.1 :: option_list b.2.

(** The items of all sections of [context.inventory]. *)
Definition inventory_items (ctx : ActorSheet5eCharacter.Context)
  : list ActorSheet5eCharacter.item :=
  ActorSheet5eCharacter.inventory ctx ≫= ActorSheet5eCharacter.items.

(** The order of the class section: a higher level comes first. *)
Definition by_level_desc (a b : ActorSheet5eCharacter.item) : Prop :=
  (ActorSheet5eCharacter.levels b ≤ ActorSheet5eCharacter.levels a)%Z.

(** The subclasses that the pairing leaves unmatched. *)
Definition unmatched_subclasses (host : Host) (cfg : Config)
    (this : ActorSheet5eCharacter.sheet) (l : list ActorSheet5eCharacter.item)
  : list ActorSheet5eCharacter.item :=
  (pair_classes host cfg this l).1.2.

(** A subclass sits behind the class it names. *)
Definition block_matches (host : Host)
    (b : ActorSheet5eCharacter.item * option ActorSheet5eCharacter.item) : Prop :=
  ∀ s, b.2 = Some s → ActorSheet5eCharacter.classIdentifier s = class_key host b.1.

(** A class without subclass is named by none of the subclasses [subs]. *)
Definition block_unclaimed (host : Host)
    (subs : list ActorSheet5eCharacter.item)
    (b : ActorSheet5eCharacter.item * option ActorSheet5eCharacter.item) : Prop :=
  b.2 = None →
  Forall (λ s, ActorSheet5eCharacter.classIdentifier s ≠ class_key host b.1) subs.

(** *** Dropping an item on the sheet: [_onDropSingleItem] *)

(** The dropped [itemData], as far as [_onDropSingleItem] reads it. *)
Record DropData : Type := {
  drop_type : string;
  (** [itemData.system.levels] *)
  drop_levels : Z;
  (** [itemData.system.identifier] *)
  drop_identifier : string;
  (** [itemData.system.classIdentifier] *)
  drop_classIdentifier : string;
}.

(** What [_onDropSingleItem] reads from outside the sheet. *)
Record DropEnv : Type := {
  (** the getter [identifier] of an owned item document *)
  doc_identifier : ActorSheet5eCharacter.item → string;
  (** the getter [subclass] of an owned class item *)
  doc_subclass : ActorSheet5eCharacter.item → option ActorSheet5eCharacter.item;
  (** [game.settings.get("dnd5e", "disableAdvancements")] *)
  disableAdvancements : bool;
  (** [AdvancementManager.forLevelChange(actor, id, levels).steps.length] *)
  advancement_steps : string → Z → nat;
}.

(** How [_onDropSingleItem] ends. *)
Inductive DropOutcome : Type :=
| DropError (message : string)
    (** [ui.notifications.error(err); return false] *)
| DropAdvancement (classId : string) (added : Z)
    (** [manager.render(true); return false] *)
| DropLevelUp (classId : string) (newLevels : Z)
    (** [cls.update({"system.levels": ...}); return false] *)
| DropCreate (itemData : DropData)
    (** [return super._onDropSingleItem(itemData)] *).

(** [itemData] with [system.levels] overwritten. *)
Definition set_drop_levels (n : Z) (d : DropData) : DropData :=
  {| drop_type := drop_type d; drop_levels := n;
     drop_identifier := drop_identifier d;
     drop_classIdentifier := drop_classIdentifier d |}.

(** [_onDropSingleItem(itemData)], given the actor's level and its class
    and subclass items ([this.actor.itemTypes]). *)
Definition _onDropSingleItem (host : Host) (cfg : Config) (env : DropEnv)
    (charLevel : Z)
    (classes subclasses : list ActorSheet5eCharacter.item)
    (itemData : DropData) : DropOutcome :=
  if bool_decide (drop_type itemData = "class") then
    let itemData :=
      set_drop_levels (Z.min (drop_levels itemData) (maxLevel cfg - charLevel))
                      itemData in
    if bool_decide (drop_levels itemData ≤ 0)%Z then
      DropError (format host "DND5E.MaxCharacterLevelExceededWarn"
                   [("max", ToString host
                              (JNum (Finite (inject_Z (maxLevel cfg)))))])
    else
      match List.find (λ c, bool_decide
                              (doc_identifier env c = drop_identifier itemData))
                      classes with
      | Some cls =>
          let priorLevel := ActorSheet5eCharacter.levels cls in
          if negb (disableAdvancements env)
             && negb (Nat.eqb (advancement_steps env
                                 (ActorSheet5eCharacter.id cls)
                                 (drop_levels itemData)) 0)
          then DropAdvancement (ActorSheet5eCharacter.id cls)
                               (drop_levels itemData)
          else DropLevelUp (ActorSheet5eCharacter.id cls)
                           (priorLevel + drop_levels itemData)
      | None => DropCreate itemData
      end
  else if bool_decide (drop_type itemData = "subclass") then
    match List.find (λ i, bool_decide
                            (doc_identifier env i = drop_identifier itemData))
                    subclasses with
    | Some other =>
        DropError (format host "DND5E.SubclassDuplicateError"
                     [("identifier", doc_identifier env other)])
    | None =>
        match List.find (λ i, bool_decide
                                (doc_identifier env i
                                 = drop_classIdentifier itemData))
                        classes with
        | Some cls =>
            match doc_subclass env cls with
            | Some sub =>
                DropError (format host "DND5E.SubclassAssignmentError"
                             [("class", ActorSheet5eCharacter.name cls);
                              ("subclass", ActorSheet5eCharacter.name sub)])
            | None => DropCreate itemData
            end
        | None => DropCreate itemData
        end
    end
  else DropCreate itemData.

(** *** Records in the current shape *)

(** The fields that the own migration steps of a kind look at already
    have their current shape. *)
Definition current_shape (k : ItemKind) (source : gmap string JsVal) : Prop :=
  match k with
  | weapon =>
      (source !! "properties" = None ∨
       ∃ props, source !! "properties" = Some (JObj props) ∧
                map_Forall (λ _ v, typeof_is v "boolean" = true) props) ∧
      typeof_is (field source "proficient") "boolean" = false ∧
      is_null (field source "weaponType") = false
  | equipment =>
      (source !! "armor" = None ∨
       ∃ armor, source !! "armor" = Some (JObj armor) ∧
                is_string (default JUndefined (armor !! "type")) "bonus" = false ∧
                typeof_is (default JUndefined (armor !! "dex")) "string" = false) ∧
      typeof_is (field source "strength") "string" = false ∧
      typeof_is (field source "proficient") "boolean" = false
  | tool => Array_isArray (field source "ability") = false
  | consumable => True
  end.

(** *** More concrete inputs *)

Module MoreExamples.

(** A weapon source whose [properties] is an array. *)
Definition weapon_array : gmap string JsVal :=
  {[ "properties" := JArr [Some (JBool true); Some (JStr "ver")] ]}.

(** A weapon source in the current shape; it is also what migration
    makes of [Examples.weapon_legacy]. *)
Definition weapon_current : gmap string JsVal :=
  {[ "properties" := JObj {[ "fin" := JBool true ]};
     "proficient" := JNum (Finite 1);
     "weaponType" := JStr "simpleM" ]}.

(** What migration makes of [Examples.equipment_legacy]. *)
Definition equipment_migrated : gmap string JsVal :=
  {[ "armor" := JObj {[ "type" := JStr "trinket"; "dex" := JNull ]};
     "strength" := JNum (Finite 15);
     "proficient" := JNum (Finite 0) ]}.

(** A legacy tool source with a field that is not the tool's own. *)
Definition tool_flavored : gmap string JsVal :=
  {[ "ability" := JArr [Some (JStr "int")]; "chatFlavor" := JStr "Tinker" ]}.

(** What migration makes of [tool_flavored]. *)
Definition tool_flavored_migrated : gmap string JsVal :=
  {[ "ability" := JStr "int"; "chatFlavor" := JStr "Tinker" ]}.

(** A player character proficient with martial weapons. *)
Definition fighter : Actor5e := with_more_tags {[ "mar" ]} Sample.character.

(** Document getters for the drop examples: the identifier is the
    [system.identifier], and no class has a subclass yet. *)
Definition drop_env : DropEnv :=
  {| doc_identifier := ActorSheet5eCharacter.identifier;
     doc_subclass := λ _, None;
     disableAdvancements := true;
     advancement_steps := λ _ _, 0%nat |}.

(** Five levels of fighter, dropped on a character. *)
Definition fighter_drop : DropData :=
  {| drop_type := "class"; drop_levels := 5;
     drop_identifier := "fighter"; drop_classIdentifier := "" |}.

(** A subclass for the wizard class. *)
Definition evoker_drop : DropData :=
  {| drop_type := "subclass"; drop_levels := 0;
     drop_identifier := "evoker"; drop_classIdentifier := "wizard" |}.

End MoreExamples.

(* ===================================================================== *)
(** * Part II: properties                                                 *)
(* ===================================================================== *)

(** ** Completions and single-key steps *)

Lemma cbind_Normal_inv {A B : Type} (c : completion A) (k : A → completion B) b :
  cbind c k = Normal b → ∃ a, c = Normal a ∧ k a = Normal b.
Proof. destruct c as [a|e]; simpl; [eauto | discriminate]. Qed.

Section key_steps.
Implicit Types (s : gmap string JsVal) (F G : gmap string JsVal → completion (gmap string JsVal)).

Lemma on_key_pure key (f : option JsVal → option JsVal) s :
  on_key key (λ o, Normal (f o)) s = Normal (partial_alter f key s).
Proof.
  unfold on_key; simpl. f_equal. apply partial_alter_ext. by intros ? <-.
Qed.

Lemma key_step_fixed key F s s' :
  key_step key F → F s = Normal s' → F s' = Normal s'.
Proof.
  intros (g & Hg & HF). rewrite !HF. unfold on_key.
  intros (o & Ho & [= <-])%cbind_Normal_inv.
  rewrite lookup_partial_alter_eq, (Hg _ _ Ho). simpl.
  by rewrite partial_alter_partial_alter_eq.
Qed.

Lemma key_step_frame key key' F G s s' :
  key ≠ key' → key_step key F → key_step key' G →
  F s = Normal s → G s = Normal s' → F s' = Normal s'.
Proof.
  intros Hne (g & _ & HF) (g' & _ & HG). rewrite HF, HG. unfold on_key.
  intros (o & Ho & [= Hs])%cbind_Normal_inv (o' & Ho' & [= <-])%cbind_Normal_inv.
  rewrite HF. unfold on_key.
  rewrite lookup_partial_alter_ne by done. rewrite Ho. simpl.
  rewrite partial_alter_partial_alter_ne by done. by rewrite Hs.
Qed.
End key_steps.
Section property_sweep.
Import WeaponData.


Lemma for_of_boolean_entries l props :
  Forall boolean_entry l → for_of delete_unless_boolean l props = Normal props.
Proof.
  induction 1 as [|[key value] l Hb _ IH]; [done|]. simpl.
  unfold boolean_entry in Hb. simpl in Hb. by rewrite Hb.
Qed.


Lemma for_of_object l (m : gmap string JsVal) :
  for_of delete_unless_boolean ((λ kv, (Name kv.1, kv.2)) <$> l) (JObj m)
  = Normal (JObj (foldl drop_key m l)).
Proof.
  revert m. induction l as [|[k v] l IH]; intros m; [done|]. simpl.
  unfold drop_key at 2. simpl. destruct (typeof_is v "boolean"); simpl; apply IH.
Qed.

Lemma foldl_drop_key_lookup l (m : gmap string JsVal) k v :
  foldl drop_key m l !! k = Some v →
  m !! k = Some v ∧ ∀ w, (k, w) ∈ l → typeof_is w "boolean" = true.
Proof.
  revert m. induction l as [|[k' v'] l IH]; intros m Hl; simpl in Hl.
  - split; [done|]. intros w Hw. by apply elem_of_nil in Hw.
  - apply IH in Hl as [Hm Hall]. unfold drop_key in Hm. simpl in Hm.
    destruct (typeof_is v' "boolean") eqn:Hb.
    + split; [done|]. intros w [[= -> ->]|Hw]%elem_of_cons; auto.
    + apply lookup_delete_Some in Hm as [Hne Hm]. split; [done|].
      intros w [[= -> ->]|Hw]%elem_of_cons; [done | auto].
Qed.

Lemma swept_object_boolean (m : gmap string JsVal) :
  Forall boolean_entry
    ((λ kv, (Name kv.1, kv.2)) <$> map_to_list (foldl drop_key m (map_to_list m))).
Proof.
  apply Forall_fmap, Forall_forall. intros [k v] Hkv%elem_of_map_to_list.
  apply foldl_drop_key_lookup in Hkv as [Hm Hall].
  apply Hall. by apply elem_of_map_to_list.
Qed.

Lemma for_of_array pre suf :
  for_of delete_unless_boolean (array_entries (length pre) suf) (JArr (pre ++ suf))
  = Normal (JArr (pre ++ blank_non_boolean suf)).
Proof.
  revert pre. induction suf as [|[v|] suf IH]; intros pre; simpl.
  - done.
  - destruct (typeof_is v "boolean") eqn:Hb; simpl.
    + specialize (IH (pre ++ [Some v])). rewrite length_app in IH. simpl in IH.
      rewrite Nat.add_1_r, <- !(assoc_L (++)) in IH. apply IH.
    + replace (<[length pre:=None]> (pre ++ Some v :: suf)) with (pre ++ None :: suf).
      * specialize (IH (pre ++ [None])). rewrite length_app in IH. simpl in IH.
        rewrite Nat.add_1_r, <- !(assoc_L (++)) in IH. apply IH.
      * rewrite <- (Nat.add_0_r (length pre)) at 1. by rewrite insert_app_r.
  - specialize (IH (pre ++ [None])). rewrite length_app in IH. simpl in IH.
    rewrite Nat.add_1_r, <- !(assoc_L (++)) in IH. apply IH.
Qed.

Lemma for_of_whole_array elems :
  for_of delete_unless_boolean (array_entries 0 elems) (JArr elems)
  = Normal (JArr (blank_non_boolean elems)).
Proof. apply (for_of_array [] elems). Qed.

Lemma blanked_array_boolean n elems :
  Forall boolean_entry (array_entries n (blank_non_boolean elems)).
Proof.
  revert n. induction elems as [|[v|] elems IH]; intros n; simpl; [done| |by apply IH].
  destruct (typeof_is v "boolean") eqn:Hb; simpl; [|by apply IH].
  constructor; [done | apply IH].
Qed.

Lemma for_of_text s :
  s ≠ "" →
  for_of delete_unless_boolean (imap (λ i c, (Index i, c)) (characters s)) (JStr s)
  = Throw TypeError.
Proof.
  by destruct s as [|c rest].
Qed.
End property_sweep.

Section steps.
Variable host : Host.

Lemma migratePropertiesData_step :
  key_step "properties" WeaponData.migratePropertiesData.
Proof.
  exists (λ o,
    let properties := default JUndefined o in
    if negb (truthy properties) then Normal o
    else
      entries ←! Object_entries properties;
      properties' ←! for_of WeaponData.delete_unless_boolean entries properties;
      Normal (Some properties')).
  split.
  - intros o o'. cbv zeta.
    destruct (negb (truthy (default JUndefined o))) eqn:Ht.
    { intros [= <-]. by rewrite Ht. }
    destruct o as [[| |b|n|s|elems|m]|]; try discriminate Ht;
      cbn [default from_option id] in Ht |- *.
    + cbn [Object_entries cbind for_of]. intros [= <-]. cbn [default from_option id]. by rewrite Ht.
    + cbn [Object_entries cbind for_of]. intros [= <-]. cbn [default from_option id]. by rewrite Ht.
    + destruct s as [|c rest]; [by vm_compute in Ht | by simpl].
    + cbn [Object_entries cbind].
      rewrite for_of_whole_array. simpl. intros [= <-]. simpl.
      by rewrite (for_of_boolean_entries _ _ (blanked_array_boolean 0 elems)).
    + cbn [Object_entries cbind].
      rewrite for_of_object. simpl. intros [= <-]. simpl.
      by rewrite (for_of_boolean_entries _ _ (swept_object_boolean m)).
  - intros source. unfold WeaponData.migratePropertiesData, on_key, field.
    destruct (negb (truthy (default JUndefined (source !! "properties")))).
    + simpl. by rewrite partial_alter_self.
    + destruct (Object_entries _) as [entries|e]; simpl; [|done].
      by destruct (for_of _ _ _).
Qed.

Lemma boolean_to_number_step key :
  key_step key (λ source, Normal (
    if typeof_is (field source key) "boolean"
    then <[key := JNum (Number_ host (field source key))]> source
    else source)).
Proof.
  exists (λ o, Normal (if typeof_is (default JUndefined o) "boolean"
                       then Some (JNum (Number_ host (default JUndefined o)))
                       else o)).
  split.
  - intros o o' [= <-]. by destruct (typeof_is (default JUndefined o) "boolean") eqn:Hb; simpl; [|rewrite Hb].
  - intros source. unfold on_key, field. cbn [cbind]. f_equal.
    destruct (typeof_is _ _); [done|]. by rewrite partial_alter_self.
Qed.
End steps.

Section steps2.
Variable host : Host.

Lemma migrateWeaponType_step :
  key_step "weaponType" (λ source, Normal (WeaponData.migrateWeaponType source)).
Proof.
  exists (λ o, Normal (if is_null (default JUndefined o)
                       then Some (JStr "simpleM") else o)).
  split.
  - intros o o' [= <-].
    by destruct (is_null (default JUndefined o)) eqn:Hb; simpl; [|rewrite Hb].
  - intros source. unfold on_key, WeaponData.migrateWeaponType, field.
    cbn [cbind]. f_equal.
    destruct (is_null _); [done|]. by rewrite partial_alter_self.
Qed.

Lemma migrateStrength_step :
  key_step "strength" (λ source, Normal (EquipmentData.migrateStrength host source)).
Proof.
  exists (λ o, Normal (
    if negb (typeof_is (default JUndefined o) "string") then o
    else
      let o1 := if is_string (default JUndefined o) "" then Some JNull else o in
      if Number_isNumeric host (default JUndefined o1)
      then Some (JNum (Number_ host (default JUndefined o1))) else o1)).
  split.
  - intros o o' [= <-].
    destruct (negb (typeof_is (default JUndefined o) "string")) eqn:Hs.
    { by rewrite Hs. }
    destruct o as [[| |b|n|s|elems|m]|]; try discriminate Hs.
    cbn [default from_option id is_string].
    case_bool_decide as Hempty; cbn [default from_option id].
    + done.
    + destruct (Number_isNumeric host (JStr s)) eqn:Hnum; [done|].
      cbn [default from_option id typeof_is typeof negb]. simpl.
      rewrite bool_decide_eq_false_2 by done. cbn [default from_option id]. by rewrite Hnum.
  - intros source. unfold on_key, EquipmentData.migrateStrength, field.
    cbn [cbind]. f_equal.
    destruct (negb (typeof_is _ _)) eqn:Hs.
    { by rewrite partial_alter_self. }
    destruct (is_string (default JUndefined (source !! "strength")) "") eqn:He.
    + rewrite lookup_insert_eq. cbn [default from_option id]. 
      destruct (Number_isNumeric host JNull); [|done].
      by rewrite insert_insert_eq.
    + destruct (Number_isNumeric host _); [done|]. by rewrite partial_alter_self.
Qed.
End steps2.

Section armor.
Variable host : Host.

Lemma renamed_type_step :
  key_step "type" (λ armor, Normal (renamed_type armor)).
Proof.
  exists (λ o, Normal (if is_string (default JUndefined o) "bonus"
                       then Some (JStr "trinket") else o)).
  split.
  - intros o o' [= <-].
    by destruct (is_string (default JUndefined o) "bonus") eqn:Hb; simpl; [|rewrite Hb].
  - intros armor. unfold on_key, renamed_type. cbn [cbind]. f_equal.
    destruct (is_string _ _); [done|]. by rewrite partial_alter_self.
Qed.

Lemma coerced_dex_step :
  key_step "dex" (λ armor, Normal (coerced_dex host armor)).
Proof.
  exists (λ o, Normal (
    let dex := default JUndefined o in
    if typeof_is dex "string" then
      if is_string dex "" then Some JNull
      else if Number_isNumeric host dex then Some (JNum (Number_ host dex))
           else o
    else o)).
  split.
  - intros o o' [= <-]. cbv zeta.
    destruct (typeof_is (default JUndefined o) "string") eqn:Hs; [|by rewrite Hs].
    destruct (is_string (default JUndefined o) "") eqn:He; [done|].
    destruct (Number_isNumeric host (default JUndefined o)) eqn:Hn; [done|].
    by rewrite Hs, He, Hn.
  - intros armor. unfold on_key, coerced_dex. cbn [cbind]. cbv zeta. f_equal.
    destruct (typeof_is _ _); [|by rewrite partial_alter_self].
    destruct (is_string _ _); [done|].
    destruct (Number_isNumeric _ _); [done|]. by rewrite partial_alter_self.
Qed.

Lemma key_steps_chain2 k1 k2 F1 F2 (s s1 s2 : gmap string JsVal) :
  k1 ≠ k2 → key_step k1 F1 → key_step k2 F2 →
  F1 s = Normal s1 → F2 s1 = Normal s2 →
  F1 s2 = Normal s2 ∧ F2 s2 = Normal s2.
Proof.
  intros Hne H1 H2 E1 E2. split.
  - eapply (key_step_frame k1 k2); eauto using key_step_fixed.
  - eauto using key_step_fixed.
Qed.


Lemma armor_object_settles (m : gmap string JsVal) :
  coerced_dex host (renamed_type (coerced_dex host (renamed_type m)))
  = coerced_dex host (renamed_type m).
Proof.
  destruct (key_steps_chain2 "type" "dex"
    (λ a, Normal (renamed_type a)) (λ a, Normal (coerced_dex host a))
    m (renamed_type m) (coerced_dex host (renamed_type m))) as [[= E1] [= E2]];
    auto using renamed_type_step, coerced_dex_step.
  by rewrite E1, E2.
Qed.

Lemma migrateArmor_object (source m : gmap string JsVal) :
  source !! "armor" = Some (JObj m) →
  EquipmentData.migrateArmor host source
  = Normal (<["armor" := JObj (coerced_dex host (renamed_type m))]> source).
Proof.
  intros Hm. unfold EquipmentData.migrateArmor. rewrite Hm.
  cbn [nullish get_prop cbind]. unfold coerced_dex, renamed_type.
  destruct (is_string (default JUndefined (m !! "type")) "bonus");
    cbn [set_prop get_prop cbind];
    (destruct (typeof_is _ "string"); [|done]);
    (destruct (is_string _ ""); [done|]);
    by destruct (Number_isNumeric _ _).
Qed.

Lemma migrateArmor_result (source : gmap string JsVal) armor0 :
  source !! "armor" = Some armor0 →
  EquipmentData.migrateArmor host source
  = Normal (<["armor" := settled_armor host armor0]> source).
Proof.
  intros Ha. destruct armor0 as [| |b|n|s|elems|m];
    try (unfold EquipmentData.migrateArmor; rewrite Ha; reflexivity).
  by apply migrateArmor_object.
Qed.

Lemma settled_armor_settles armor0 :
  settled_armor host (settled_armor host armor0) = settled_armor host armor0.
Proof.
  destruct armor0 as [| |b|n|s|elems|m]; try reflexivity.
  cbn [settled_armor]. by rewrite armor_object_settles.
Qed.

Lemma migrateArmor_step : key_step "armor" (EquipmentData.migrateArmor host).
Proof.
  exists (λ o, Normal (settled_armor host <$> o)). split.
  - intros o o' [= <-]. destruct o as [armor0|]; [|done].
    cbn [fmap option_fmap option_map]. by rewrite settled_armor_settles.
  - intros source. unfold on_key. cbn [cbind].
    destruct (source !! "armor") as [armor0|] eqn:Ha.
    + by rewrite (migrateArmor_result _ _ Ha).
    + unfold EquipmentData.migrateArmor. rewrite Ha. f_equal.
      symmetry. apply partial_alter_id. by rewrite Ha.
Qed.
End armor.

Section own_steps.
Variable host : Host.






Lemma migrateArmor_completes (source : gmap string JsVal) :
  ∃ out, EquipmentData.migrateArmor host source = Normal out.
Proof.
  destruct (source !! "armor") as [armor0|] eqn:Ha.
  - rewrite (migrateArmor_result host _ _ Ha). by eexists.
  - unfold EquipmentData.migrateArmor. rewrite Ha. by eexists.
Qed.

Lemma migratePropertiesData_text (source : gmap string JsVal) :
  properties_text source = true →
  WeaponData.migratePropertiesData source = Throw TypeError.
Proof.
  unfold properties_text, WeaponData.migratePropertiesData.
  destruct (field source "properties") as [| |b|n|s|elems|m]; try done.
  intros [_ Ht]%andb_true_iff. rewrite Ht. by destruct s.
Qed.

Lemma migratePropertiesData_completes (source : gmap string JsVal) :
  properties_text source = false →
  ∃ out, WeaponData.migratePropertiesData source = Normal out.
Proof.
  unfold properties_text, WeaponData.migratePropertiesData.
  destruct (negb (truthy (field source "properties"))) eqn:Ht; [by eexists|].
  destruct (field source "properties") as [| |b|n|s|elems|m]; try done.
  - by eexists.
  - by eexists.
  - apply negb_false_iff in Ht. by rewrite Ht.
  - intros _. cbn [Object_entries cbind]. rewrite for_of_whole_array. by eexists.
  - intros _. cbn [Object_entries cbind]. rewrite for_of_object. by eexists.
Qed.
End own_steps.





Section equipment_fields.
Variable host : Host.

Lemma key_step_other key F (s s' : gmap string JsVal) k :
  key_step key F → F s = Normal s' → k ≠ key → s' !! k = s !! k.
Proof.
  intros (g & _ & HF). rewrite HF. unfold on_key.
  intros (o & _ & [= <-])%cbind_Normal_inv Hne.
  by rewrite lookup_partial_alter_ne.
Qed.

Lemma isNumeric_text t :
  t ≠ "" →
  Number_isNumeric host (JStr t) = negb (is_NaN (StringToNumber host t)).
Proof.
  intros Ht. unfold Number_isNumeric. cbn [Array_isArray is_null is_string orb].
  by rewrite bool_decide_eq_false_2.
Qed.

Lemma migrateStrength_field (s : gmap string JsVal) :
  field (EquipmentData.migrateStrength host s) "strength"
  = coerce_numeric host (field s "strength").
Proof.
  unfold EquipmentData.migrateStrength.
  destruct (field s "strength") as [| |b|n|t|elems|m] eqn:Hs;
    try (change (negb (typeof_is _ "string")) with true; by cbn).
  change (negb (typeof_is _ "string")) with false. cbn [is_string coerce_numeric].
  case_bool_decide as Ht.
  - unfold field at 2. rewrite lookup_insert_eq. cbn. unfold field.
    by rewrite lookup_insert_eq.
  - rewrite Hs, isNumeric_text by done.
    destruct (is_NaN (StringToNumber host t)); cbn; [done|].
    unfold field. by rewrite lookup_insert_eq.
Qed.

Lemma coerced_dex_field (m : gmap string JsVal) :
  default JUndefined (coerced_dex host (renamed_type m) !! "dex")
  = coerce_numeric host (default JUndefined (m !! "dex")).
Proof.
  assert (renamed_type m !! "dex" = m !! "dex") as Hd.
  { unfold renamed_type. destruct (is_string _ _); [|done].
    by rewrite lookup_insert_ne. }
  unfold coerced_dex. rewrite Hd.
  destruct (default JUndefined (m !! "dex")) as [| |b|n|t|elems|l] eqn:Hm;
    try (change (typeof_is _ "string") with false; cbn; by rewrite Hd, Hm).
  change (typeof_is _ "string") with true. cbn [is_string coerce_numeric].
  case_bool_decide as Ht.
  - by rewrite lookup_insert_eq.
  - rewrite isNumeric_text by done.
    destruct (is_NaN (StringToNumber host t)); cbn; [by rewrite Hd, Hm|].
    by rewrite lookup_insert_eq.
Qed.

Lemma coerce_numeric_text v :
  typeof_is (coerce_numeric host v) "string" = true ↔
  ∃ t, v = JStr t ∧ t ≠ "" ∧ is_NaN (StringToNumber host t) = true.
Proof.
  destruct v as [| |b|n|t|elems|m];
    try (split; [by intros [=] | by intros (? & ? & _)]).
  cbn [coerce_numeric]. case_bool_decide as Ht.
  - split; [by intros [=]|]. by intros (? & [= <-] & ? & _).
  - destruct (is_NaN (StringToNumber host t)) eqn:Hn.
    + split; [eauto|done].
    + split; [by intros [=]|]. intros (? & [= <-] & _ & ?). congruence.
Qed.

Lemma equipment_migrateProficient_other (s : gmap string JsVal) k :
  k ≠ "proficient" → EquipmentData.migrateProficient host s !! k = s !! k.
Proof.
  intros Hk.
  by apply (key_step_other "proficient"
              (λ x, Normal (EquipmentData.migrateProficient host x)) s _ k
              (boolean_to_number_step host "proficient")).
Qed.

Lemma migrateStrength_other (s : gmap string JsVal) k :
  k ≠ "strength" → EquipmentData.migrateStrength host s !! k = s !! k.
Proof.
  intros Hk.
  by apply (key_step_other "strength"
              (λ x, Normal (EquipmentData.migrateStrength host x)) s _ k
              (migrateStrength_step host)).
Qed.
End equipment_fields.

Lemma equipment_fields_coerced host inherited (source : gmap string JsVal) :
  ∃ out, migrate host inherited equipment source = Normal out ∧
    field out "strength"
      = coerce_numeric host (field (inherited equipment source) "strength") ∧
    ∀ armor, inherited equipment source !! "armor" = Some (JObj armor) →
      ∃ armor', out !! "armor" = Some (JObj armor') ∧
        default JUndefined (armor' !! "dex")
          = coerce_numeric host (default JUndefined (armor !! "dex")).
Proof.
  unfold migrate, EquipmentData.migrateData.
  set (s := inherited equipment source).
  destruct (migrateArmor_completes host s) as [s1 E1]. rewrite E1. cbn [cbind].
  eexists; split; [done|]. split.
  - unfold field at 1. rewrite equipment_migrateProficient_other by done.
    fold (field (EquipmentData.migrateStrength host s1) "strength").
    rewrite migrateStrength_field. unfold field.
    by rewrite (key_step_other _ _ _ _ "strength" (migrateArmor_step host) E1).
  - intros armor Ha.
    rewrite equipment_migrateProficient_other, migrateStrength_other by done.
    rewrite (migrateArmor_object host s armor Ha) in E1. injection E1 as <-.
    eexists; split; [apply lookup_insert_eq|]. apply coerced_dex_field.
Qed.

(** C6 (amended). Equipment migration always completes; it turns the
    strength requirement and, when [armor] is an object, the armor
    dexterity cap into [null] when they are the empty string and into a
    number when they are a numeric string, and leaves every other value as
    it is. So after migration such a field is a string exactly when it was
    a non-empty string that is not numeric. *)
Theorem equipment_numeric_fields host inherited (source : gmap string JsVal) :
  ∃ out, migrate host inherited equipment source = Normal out ∧
    field out "strength"
      = coerce_numeric host (field (inherited equipment source) "strength") ∧
    (typeof_is (field out "strength") "string" = true ↔
     ∃ t, field (inherited equipment source) "strength" = JStr t ∧ t ≠ ""
          ∧ is_NaN (StringToNumber host t) = true) ∧
    ∀ armor, inherited equipment source !! "armor" = Some (JObj armor) →
      ∃ armor', out !! "armor" = Some (JObj armor') ∧
        default JUndefined (armor' !! "dex")
          = coerce_numeric host (default JUndefined (armor !! "dex")) ∧
        (typeof_is (default JUndefined (armor' !! "dex")) "string" = true ↔
         ∃ t, default JUndefined (armor !! "dex") = JStr t ∧ t ≠ ""
              ∧ is_NaN (StringToNumber host t) = true).
Proof.
  destruct (equipment_fields_coerced host inherited source)
    as (out & E & Hs & Ha).
  exists out. split; [done|]. split; [done|]. split.
  - rewrite Hs. apply coerce_numeric_text.
  - intros armor Harmor. destruct (Ha armor Harmor) as (armor' & E' & Hd).
    exists armor'. split; [done|]. split; [done|].
    rewrite Hd. apply coerce_numeric_text.
Qed.

Lemma equipment_numeric_fields_witness :
  ∃ out armor',
    migrate Sample.host Sample.inherited_idle equipment Examples.equipment_legacy
      = Normal out ∧
    field out "strength" = JNum (Finite 15) ∧
    out !! "armor" = Some (JObj armor') ∧
    default JUndefined (armor' !! "dex") = JNull.
Proof.
  destruct (equipment_numeric_fields Sample.host Sample.inherited_idle
              Examples.equipment_legacy) as (out & E & Hs & _ & Ha).
  destruct (Ha {[ "type" := JStr "bonus"; "dex" := JStr "" ]} eq_refl)
    as (armor' & E' & Hd & _).
  exists out, armor'. split; [exact E|]. split; [exact Hs|].
  split; [exact E' | exact Hd].
Defined.

Lemma equipment_text_survives :
  ∃ out armor',
    migrate Sample.host Sample.inherited_idle equipment Examples.equipment_text
      = Normal out ∧
    field out "strength" = JStr "heavy" ∧
    out !! "armor" = Some (JObj armor') ∧
    armor' !! "dex" = Some (JStr "abc").
Proof.
  exists Examples.equipment_text, {[ "type" := JStr "light"; "dex" := JStr "abc" ]}.
  split; [vm_compute; reflexivity|]. split; [vm_compute; reflexivity|].
  split; vm_compute; reflexivity.
Qed.

(** ** Derived attributes *)

Lemma proficient_field_with_parent p it :
  proficient_field (with_parent p it) = proficient_field it.
Proof. by destruct it. Qed.

Lemma proficiencyMultiplier_override cfg it q :
  proficiency_override it = Some q → proficiencyMultiplier cfg it = Finite q.
Proof.
  unfold proficiency_override.
  destruct it as [w|e|t|c]; cbn [proficient_field proficiencyMultiplier].
  - unfold WeaponData.proficiencyMultiplier.
    destruct (WeaponData.proficient w) as [[| | |q']|]; try done. by intros [= ->].
  - unfold EquipmentData.proficiencyMultiplier.
    destruct (EquipmentData.proficient e) as [[| | |q']|]; try done. by intros [= ->].
  - unfold ToolData.proficiencyMultiplier.
    destruct (ToolData.proficient t) as [[| | |q']|]; try done. by intros [= ->].
  - done.
Qed.

(** C3. An item whose [proficient] field holds a finite number has that
    number as its proficiency multiplier, under its own owning document
    and under any other one: with or without an owning actor, whatever the
    actor's type and proficiencies. *)
Theorem override_wins cfg it q :
  proficiency_override it = Some q →
  proficiencyMultiplier cfg it = Finite q ∧
  ∀ p, proficiencyMultiplier cfg (with_parent p it) = Finite q.
Proof.
  intros Hq. split; [by apply proficiencyMultiplier_override|].
  intros p. apply proficiencyMultiplier_override.
  unfold proficiency_override in *. by rewrite proficient_field_with_parent.
Qed.

(** C4 (amended). For an item without a finite [proficient] override
    whose owner is an npc, the proficiency multiplier of a weapon, a piece
    of equipment or a tool is 1; that of a consumable is 1 when the owner
    carries the tavern brawler flag and 0 otherwise. *)
Theorem npc_proficiency cfg it actor :
  proficiency_override it = None →
  owner it = Some actor →
  actor_type actor = "npc" →
  proficiencyMultiplier cfg it =
    match it with
    | ConsumableItem _ =>
        if truthy (getFlag actor "tavernBrawlerFeat") then Finite 1 else Finite 0
    | _ => Finite 1
    end.
Proof.
  unfold proficiency_override, owner. intros Hq Ho Hnpc.
  destruct it as [w|e|t|c]; cbn [proficient_field proficiencyMultiplier parent_of] in *.
  - unfold WeaponData.proficiencyMultiplier. rewrite Ho, Hnpc.
    by destruct (WeaponData.proficient w) as [[| | |q']|].
  - unfold EquipmentData.proficiencyMultiplier. rewrite Ho, Hnpc.
    by destruct (EquipmentData.proficient e) as [[| | |q']|].
  - unfold ToolData.proficiencyMultiplier. rewrite Ho, Hnpc.
    by destruct (ToolData.proficient t) as [[| | |q']|].
  - unfold ConsumableData.proficiencyMultiplier. by rewrite Ho.
Qed.

(** C5 (amended). For an item without a finite [proficient] override
    whose owner is not an npc: the multiplier of a weapon or of a piece of
    equipment is 1 when the tag lookup succeeds or the item is proficient
    without a tag (natural weapon, improvised weapon of a tavern brawler,
    equipment category marked [true]), and 0 otherwise; that of a tool is
    the larger of the levels the owner records for its base item and for
    its category; that of a consumable follows the tavern brawler flag. *)
Theorem player_proficiency cfg it actor :
  proficiency_override it = None →
  owner it = Some actor →
  actor_type actor ≠ "npc" →
  proficiencyMultiplier cfg it =
    match it with
    | WeaponItem _ | EquipmentItem _ =>
        Number_of_bool (tag_granted cfg actor it || always_proficient cfg actor it)
    | ToolItem t =>
        Math_max (tool_level actor (ToolData.baseItem t))
                 (tool_level actor (ToolData.toolType t))
    | ConsumableItem _ =>
        Number_of_bool (truthy (getFlag actor "tavernBrawlerFeat"))
    end.
Proof.
  unfold proficiency_override, owner. intros Hq Ho Hpc.
  destruct it as [w|e|t|c]; cbn [proficient_field proficiencyMultiplier parent_of] in *.
  - unfold WeaponData.proficiencyMultiplier. rewrite Ho.
    rewrite bool_decide_eq_false_2 by done.
    assert (∀ a b c d : bool, a || b || c || d = c || d || (a || b)) as Hbool
      by (by intros [] [] [] []).
    unfold tag_granted, always_proficient.
    cbn [category_tag base_item granted_tags].
    destruct (WeaponData.proficient w) as [[| | |q']|]; try done; by rewrite Hbool.
  - unfold EquipmentData.proficiencyMultiplier. rewrite Ho.
    rewrite bool_decide_eq_false_2 by done.
    assert (∀ a c d : bool, a || c || d = c || d || a) as Hbool
      by (by intros [] [] []).
    unfold tag_granted, always_proficient.
    cbn [category_tag base_item granted_tags].
    destruct (EquipmentData.proficient e) as [[| | |q']|]; try done; by rewrite Hbool.
  - unfold ToolData.proficiencyMultiplier. rewrite Ho.
    rewrite bool_decide_eq_false_2 by done.
    by destruct (ToolData.proficient t) as [[| | |q']|].
  - unfold ConsumableData.proficiencyMultiplier. rewrite Ho.
    cbn [from_option]. by destruct (truthy _).
Qed.

(** ** Chat properties, attack ability and the sheet *)


Lemma number_ge_le a b : number_ge a b = true ↔ number_le b a.
Proof.
  split.
  - destruct a as [| | |p], b as [| | |q]; cbn [number_ge]; try done;
      try (intros _; by constructor).
    intros H. constructor. by apply Qle_bool_iff.
  - intros H. destruct H as [p q H|b H|a H].
    + cbn [number_ge]. by apply Qle_bool_iff.
    + by destruct b.
    + by destruct a.
Qed.

Lemma number_le_finite p q : number_le (Finite p) (Finite q) ↔ (p <= q)%Q.
Proof.
  split; [|by constructor].
  intros H. by inversion H.
Qed.

Lemma number_le_NaN a : ¬ number_le a NaN ∧ ¬ number_le NaN a.
Proof. split; intros H; by inversion H. Qed.

Lemma typeAbilityMod_finesse (w : WeaponData.data) abilities :
  WeaponData.weaponType w ∉ ["simpleR"; "martialR"] →
  WeaponData.properties w !! "fin" = Some true →
  item_actor (WeaponData.parent w) ≫= actor_abilities = Some abilities →
  WeaponData._typeAbilityMod w
  = if number_ge (modifier abilities "dex") (modifier abilities "str")
    then Some "dex" else Some "str".
Proof.
  intros Hr Hfin Hab. unfold WeaponData._typeAbilityMod, modifier.
  rewrite bool_decide_eq_false_2 by done. by rewrite Hfin, Hab.
Qed.

(** C10. The attack ability of a weapon is ["dex"] for the ranged types.
    Otherwise, for a finesse weapon whose owner has ability scores, it is
    ["dex"] or ["str"]: ["dex"] exactly when the strength modifier is at
    most the dexterity modifier in the order of numbers, ["str"] exactly
    when it is not; a missing modifier counts as 0, and for finite
    modifiers the order is that of their values. In every other case it is
    [null]. *)
Theorem typeAbilityMod_cases (w : WeaponData.data) :
  (WeaponData.weaponType w ∈ ["simpleR"; "martialR"] →
   WeaponData._typeAbilityMod w = Some "dex") ∧
  (WeaponData.weaponType w ∉ ["simpleR"; "martialR"] →
   ∀ abilities,
     WeaponData.properties w !! "fin" = Some true →
     item_actor (WeaponData.parent w) ≫= actor_abilities = Some abilities →
     (WeaponData._typeAbilityMod w = Some "dex"
      ↔ number_le (modifier abilities "str") (modifier abilities "dex")) ∧
     (WeaponData._typeAbilityMod w = Some "str"
      ↔ ¬ number_le (modifier abilities "str") (modifier abilities "dex")) ∧
     (∀ d s, modifier abilities "dex" = Finite d →
             modifier abilities "str" = Finite s →
             ((s <= d)%Q → WeaponData._typeAbilityMod w = Some "dex") ∧
             ((d < s)%Q → WeaponData._typeAbilityMod w = Some "str"))) ∧
  (WeaponData.weaponType w ∉ ["simpleR"; "martialR"] →
   WeaponData.properties w !! "fin" ≠ Some true
   ∨ item_actor (WeaponData.parent w) ≫= actor_abilities = None →
   WeaponData._typeAbilityMod w = None).
Proof.
  split; [|split].
  - intros Hr. unfold WeaponData._typeAbilityMod. by rewrite bool_decide_eq_true_2.
  - intros Hr abilities Hfin Hab.
    rewrite (typeAbilityMod_finesse w abilities Hr Hfin Hab).
    pose proof (number_ge_le (modifier abilities "dex") (modifier abilities "str"))
      as Hle.
    assert ((if number_ge (modifier abilities "dex") (modifier abilities "str")
             then Some "dex" else Some "str") = Some "dex"
            ↔ number_le (modifier abilities "str") (modifier abilities "dex"))
      as Hdex.
    { destruct (number_ge _ _).
      - split; [intros _; by apply Hle | done].
      - split; [done | intros H; by apply Hle in H]. }
    assert ((if number_ge (modifier abilities "dex") (modifier abilities "str")
             then Some "dex" else Some "str") = Some "str"
            ↔ ¬ number_le (modifier abilities "str") (modifier abilities "dex"))
      as Hstr.
    { destruct (number_ge _ _).
      - split; [done | intros H; destruct H; by apply Hle].
      - split; [intros _ H; by apply Hle in H | done]. }
    split; [exact Hdex|]. split; [exact Hstr|].
    intros d s Hd Hs. rewrite Hd, Hs in Hdex, Hstr. rewrite Hd, Hs. split.
    + intros Hsd. apply Hdex. by constructor.
    + intros Hds. apply Hstr. intros Hsd%number_le_finite.
      by apply Qle_not_lt in Hsd.
  - intros Hr Hno. unfold WeaponData._typeAbilityMod.
    rewrite bool_decide_eq_false_2 by done.
    destruct Hno as [Hfin|Hab].
    + by destruct (WeaponData.properties w !! "fin") as [[]|].
    + rewrite Hab. by destruct (WeaponData.properties w !! "fin") as [[]|].
Qed.

Section sheet_examples.
Import ActorSheet5eCharacter.

(** C9 (amended). With a maximum level of 20, a character of total level
    15 and a class at level 3, the options are the levels 1 to 20 with the
    deltas -2 to 17, an option is disabled exactly when its delta exceeds
    5, and the options from level 4 on are the levels 4 to 20 with the
    deltas 1 to 17. *)
Theorem level_options_example cfg this cls :
  maxLevel cfg = 20%Z → actor_level this = 15%Z → levels cls = 3%Z →
  level <$> level_options cfg this cls = seqZ 1 20 ∧
  delta <$> level_options cfg this cls = seqZ (-2) 20 ∧
  Forall (λ o, disabled o = bool_decide (delta o > 5)%Z)
         (level_options cfg this cls) ∧
  level <$> drop 3 (level_options cfg this cls) = seqZ 4 17 ∧
  delta <$> drop 3 (level_options cfg this cls) = seqZ 1 17.
Proof.
  unfold level_options. intros -> -> ->.
  split; [by vm_compute|]. split; [by vm_compute|].
  split; [|split; by vm_compute].
  vm_compute. repeat constructor.
Qed.

(** C8. Whatever the order of the four items, the host, the configuration,
    the filters and the warnings already there: the class section is
    [A, S1, B], [S2] is the one passive feature, no feature is active, and
    one warning is added, formatted from the subclass name and the class
    identifier ["rogue"]. *)
Theorem pairing_example host cfg this ws l :
  l ≡ₚ [Examples.class_A; Examples.class_B;
        Examples.subclass_S1; Examples.subclass_S2] →
  feature_items (_prepareItems host cfg this l ws) 1
    = Some [Examples.class_A; Examples.subclass_S1; Examples.class_B] ∧
  feature_items (_prepareItems host cfg this l ws) 2 = Some [] ∧
  feature_items (_prepareItems host cfg this l ws) 3
    = Some [Examples.subclass_S2] ∧
  warnings (_prepareItems host cfg this l ws)
    = ws ++ [{| message := format host "DND5E.SubclassMismatchWarn"
                             [("name", "Thief"); ("class", "rogue")];
                warning_type := "warning" |}].
Proof.
  intros Hl. symmetry in Hl. apply permutations_Permutation in Hl.
  set (ps := permutations _) in Hl. vm_compute in ps. subst ps.
  repeat (apply elem_of_cons in Hl as [->|Hl]);
    [by vm_compute.. | by apply elem_of_nil in Hl].
Qed.

End sheet_examples.

(** ** The properties at concrete inputs *)





Lemma override_wins_witness :
  proficiency_override (WeaponItem (Examples.rapier Sample.unowned)) = Some 1%Q ∧
  proficiencyMultiplier Sample.config (WeaponItem (Examples.rapier Sample.unowned))
    = Finite 1 ∧
  proficiencyMultiplier Sample.config
    (WeaponItem (Examples.rapier (Sample.owned_by Sample.character))) = Finite 1.
Proof.
  split; [reflexivity|].
  destruct (override_wins Sample.config
              (WeaponItem (Examples.rapier Sample.unowned)) 1%Q eq_refl)
    as [H1 H2].
  split; [exact H1 | exact (H2 (Sample.owned_by Sample.character))].
Defined.

Lemma npc_proficiency_witness :
  proficiencyMultiplier Sample.config
    (WeaponItem (Examples.longbow (Sample.owned_by Sample.npc))) = Finite 1.
Proof.
  exact (npc_proficiency Sample.config
           (WeaponItem (Examples.longbow (Sample.owned_by Sample.npc)))
           Sample.npc eq_refl eq_refl eq_refl).
Defined.

Lemma npc_consumable_not_proficient :
  proficiency_override (Examples.potion (Sample.owned_by Sample.npc)) = None ∧
  actor_type <$> owner (Examples.potion (Sample.owned_by Sample.npc)) = Some "npc" ∧
  proficiencyMultiplier Sample.config (Examples.potion (Sample.owned_by Sample.npc))
    = Finite 0 ∧
  proficiencyMultiplier Sample.config (Examples.potion (Sample.owned_by Sample.npc))
    ≠ Finite 1.
Proof. repeat split; try reflexivity. intros [=]. Qed.

Lemma player_proficiency_witness :
  proficiencyMultiplier Sample.config
    (Examples.thieves_tools (Sample.owned_by Examples.rogue)) = Finite 2.
Proof.
  assert (actor_type Examples.rogue ≠ "npc") as Hpc by (intros [=]).
  exact (player_proficiency Sample.config
           (Examples.thieves_tools (Sample.owned_by Examples.rogue))
           Examples.rogue eq_refl eq_refl Hpc).
Defined.

Lemma player_proficiency_without_tag :
  tag_granted Sample.config Sample.character (Examples.claws Sample.character) = false ∧
  proficiencyMultiplier Sample.config (Examples.claws Sample.character) = Finite 1 ∧
  proficiencyMultiplier Sample.config
    (Examples.thieves_tools (Sample.owned_by Examples.rogue)) = Finite 2.
Proof. repeat split; vm_compute; reflexivity. Qed.



Section sheet_witnesses.
Import ActorSheet5eCharacter.

Lemma pairing_example_witness :
  feature_items
    (_prepareItems Sample.host Sample.config Examples.sheet_at_15
       [Examples.class_B; Examples.subclass_S2;
        Examples.subclass_S1; Examples.class_A] []) 1
  = Some [Examples.class_A; Examples.subclass_S1; Examples.class_B].
Proof.
  refine (proj1 (pairing_example Sample.host Sample.config Examples.sheet_at_15 []
                   [Examples.class_B; Examples.subclass_S2;
                    Examples.subclass_S1; Examples.class_A] _)).
  apply permutations_Permutation. vm_compute.
  repeat first [apply list_elem_of_here | apply list_elem_of_further].
Defined.

Lemma level_options_example_witness :
  level <$> level_options Sample.config Examples.sheet_at_15 Examples.class_at_3
  = seqZ 1 20.
Proof.
  exact (proj1 (level_options_example Sample.config Examples.sheet_at_15
                  Examples.class_at_3 eq_refl eq_refl eq_refl)).
Defined.

Lemma level_options_start_at_1 :
  head (level_options Sample.config Examples.sheet_at_15 Examples.class_at_3)
    = Some {| level := 1; delta := -2; disabled := false |} ∧
  level <$> level_options Sample.config Examples.sheet_at_15 Examples.class_at_3
    ≠ seqZ 4 17.
Proof. split; [vm_compute; reflexivity | by vm_compute]. Qed.

End sheet_witnesses.

Lemma typeAbilityMod_cases_witness :
  WeaponData._typeAbilityMod (Examples.longbow Sample.unowned) = Some "dex" ∧
  WeaponData._typeAbilityMod (Examples.rapier (Sample.owned_by Examples.duelist))
    = Some "dex" ∧
  WeaponData._typeAbilityMod (Examples.rapier (Sample.owned_by Examples.brute))
    = Some "str" ∧
  WeaponData._typeAbilityMod (Examples.rapier Sample.unowned) = None.
Proof.
  assert ("martialM" ∉ ["simpleR"; "martialR"]) as Hm
    by (apply (proj1 (bool_decide_eq_false ("martialM" ∈ ["simpleR"; "martialR"])));
        reflexivity).
  split; [|split; [|split]].
  - apply (proj1 (typeAbilityMod_cases (Examples.longbow Sample.unowned))).
    apply (proj1 (bool_decide_eq_true ("martialR" ∈ ["simpleR"; "martialR"]))).
    reflexivity.
  - destruct (proj1 (proj2 (typeAbilityMod_cases
                (Examples.rapier (Sample.owned_by Examples.duelist))))
                Hm _ eq_refl eq_refl) as (_ & _ & Hfinite).
    apply (Hfinite 3%Q 0%Q eq_refl eq_refl). by vm_compute.
  - destruct (proj1 (proj2 (typeAbilityMod_cases
                (Examples.rapier (Sample.owned_by Examples.brute))))
                Hm _ eq_refl eq_refl) as (_ & _ & Hfinite).
    apply (Hfinite 1%Q 4%Q eq_refl eq_refl). by vm_compute.
  - apply (proj2 (proj2 (typeAbilityMod_cases (Examples.rapier Sample.unowned)))
             Hm).
    right. reflexivity.
Defined.

(* ===================================================================== *)
(** * Part III: further properties                                        *)
(* ===================================================================== *)

(** ** Further properties of the migrations *)

Lemma foldl_drop_key_keeps l (m : gmap string JsVal) k v :
  m !! k = Some v →
  (∀ w, (k, w) ∈ l → typeof_is w "boolean" = true) →
  foldl drop_key m l !! k = Some v.
Proof.
  revert m. induction l as [|[k' v'] l IH]; intros m Hm Hall; [done|].
  cbn [foldl]. apply IH.
  - unfold drop_key. cbn [fst snd].
    destruct (typeof_is v' "boolean") eqn:Hb; [done|].
    rewrite lookup_delete_ne; [done|]. intros ->.
    rewrite (Hall v') in Hb; [done | apply elem_of_cons; by left].
  - intros w Hw. apply Hall, elem_of_cons. by right.
Qed.

Lemma swept_object_filter (m : gmap string JsVal) :
  foldl drop_key m (map_to_list m)
  = filter (λ kv, typeof_is kv.2 "boolean" = true) m.
Proof.
  apply map_eq. intros k. apply option_eq. intros v.
  rewrite map_lookup_filter_Some. cbn [snd]. split.
  - intros [Hm Hall]%foldl_drop_key_lookup. split; [done|].
    apply Hall. by apply elem_of_map_to_list.
  - intros [Hm Hb]. apply foldl_drop_key_keeps; [done|].
    intros w Hw%elem_of_map_to_list. congruence.
Qed.

Lemma migratePropertiesData_object (source props : gmap string JsVal) :
  source !! "properties" = Some (JObj props) →
  WeaponData.migratePropertiesData source
  = Normal (<["properties" :=
               JObj (filter (λ kv, typeof_is kv.2 "boolean" = true) props)]> source).
Proof.
  intros Hp. unfold WeaponData.migratePropertiesData, field. rewrite Hp.
  cbn [default from_option id truthy negb Object_entries cbind].
  by rewrite for_of_object, swept_object_filter.
Qed.

Lemma migratePropertiesData_array (source : gmap string JsVal) elems :
  source !! "properties" = Some (JArr elems) →
  WeaponData.migratePropertiesData source
  = Normal (<["properties" := JArr (blank_non_boolean elems)]> source).
Proof.
  intros Hp. unfold WeaponData.migratePropertiesData, field. rewrite Hp.
  cbn [default from_option id truthy negb Object_entries cbind].
  by rewrite for_of_whole_array.
Qed.

Lemma weapon_migrateProficient_other host (s : gmap string JsVal) k :
  k ≠ "proficient" → WeaponData.migrateProficient host s !! k = s !! k.
Proof.
  intros Hk.
  by apply (key_step_other "proficient"
              (λ x, Normal (WeaponData.migrateProficient host x)) s _ k
              (boolean_to_number_step host "proficient")).
Qed.

Lemma migrateWeaponType_other (s : gmap string JsVal) k :
  k ≠ "weaponType" → WeaponData.migrateWeaponType s !! k = s !! k.
Proof.
  intros Hk.
  by apply (key_step_other "weaponType"
              (λ x, Normal (WeaponData.migrateWeaponType x)) s _ k
              migrateWeaponType_step).
Qed.

Lemma migratePropertiesData_other (s s' : gmap string JsVal) k :
  WeaponData.migratePropertiesData s = Normal s' →
  k ≠ "properties" → s' !! k = s !! k.
Proof. apply key_step_other, migratePropertiesData_step. Qed.

Lemma migrateArmor_other host (s s' : gmap string JsVal) k :
  EquipmentData.migrateArmor host s = Normal s' →
  k ≠ "armor" → s' !! k = s !! k.
Proof. apply key_step_other, migrateArmor_step. Qed.

Lemma weapon_migrate_inv host inherited (source out : gmap string JsVal) :
  migrate host inherited weapon source = Normal out →
  ∃ s1, WeaponData.migratePropertiesData (inherited weapon source) = Normal s1 ∧
        out = WeaponData.migrateWeaponType (WeaponData.migrateProficient host s1).
Proof.
  unfold migrate, WeaponData.migrateData.
  intros (s1 & E1 & [= <-])%cbind_Normal_inv. eauto.
Qed.

Lemma equipment_migrate_inv host inherited (source out : gmap string JsVal) :
  migrate host inherited equipment source = Normal out →
  ∃ s1, EquipmentData.migrateArmor host (inherited equipment source) = Normal s1 ∧
        out = EquipmentData.migrateProficient host
                (EquipmentData.migrateStrength host s1).
Proof.
  unfold migrate, EquipmentData.migrateData.
  intros (s1 & E1 & [= <-])%cbind_Normal_inv. eauto.
Qed.

(** X1. When [properties] is a plain object, weapon migration completes
    and leaves in it exactly the entries whose value is a boolean, with
    their values. *)
Theorem weapon_properties_only_booleans host inherited
    (source props : gmap string JsVal) :
  inherited weapon source !! "properties" = Some (JObj props) →
  ∃ out props', migrate host inherited weapon source = Normal out ∧
    out !! "properties" = Some (JObj props') ∧
    ∀ key v, props' !! key = Some v ↔ props !! key = Some v ∧ ∃ b, v = JBool b.
Proof.
  intros Hp. unfold migrate, WeaponData.migrateData.
  rewrite (migratePropertiesData_object _ _ Hp). cbn [cbind].
  do 2 eexists. split; [done|]. split.
  - rewrite migrateWeaponType_other, weapon_migrateProficient_other by done.
    apply lookup_insert_eq.
  - intros key v. rewrite map_lookup_filter_Some. cbn [snd].
    split; intros [Hk Hb]; (split; [done|]).
    + destruct v; try done. by eexists.
    + by destruct Hb as [b ->].
Qed.

(** X2. Weapon migration throws exactly when [properties] (as the
    inherited migrations hand it on) is a non-empty string, and what it
    throws is a [TypeError]. *)
Theorem weapon_migration_throws_iff host inherited (source : gmap string JsVal) e :
  migrate host inherited weapon source = Throw e ↔
  properties_text (inherited weapon source) = true ∧ e = TypeError.
Proof.
  unfold migrate, WeaponData.migrateData. split.
  - destruct (properties_text (inherited weapon source)) eqn:Ht.
    + rewrite (migratePropertiesData_text _ Ht). by intros [= <-].
    + destruct (migratePropertiesData_completes _ Ht) as [out ->]. done.
  - intros [Ht ->]. by rewrite (migratePropertiesData_text _ Ht).
Qed.

Lemma blank_non_boolean_lookup elems i :
  blank_non_boolean elems !! i
  = (λ e, e ≫= λ v, if typeof_is v "boolean" then Some v else None)
    <$> elems !! i.
Proof. unfold blank_non_boolean. apply list_lookup_fmap. Qed.

(** X3. When [properties] is an array, weapon migration keeps its length,
    keeps the boolean elements in place and leaves a hole for every other
    element. *)
Theorem weapon_properties_array_holes host inherited
    (source : gmap string JsVal) elems :
  inherited weapon source !! "properties" = Some (JArr elems) →
  ∃ out elems', migrate host inherited weapon source = Normal out ∧
    out !! "properties" = Some (JArr elems') ∧
    length elems' = length elems ∧
    ∀ i e, elems !! i = Some e →
      elems' !! i = Some (match e with
                          | Some (JBool b) => Some (JBool b)
                          | _ => None
                          end).
Proof.
  intros Hp. unfold migrate, WeaponData.migrateData.
  rewrite (migratePropertiesData_array _ _ Hp). cbn [cbind].
  exists (WeaponData.migrateWeaponType
            (WeaponData.migrateProficient host
               (<["properties" := JArr (blank_non_boolean elems)]>
                  (inherited weapon source)))),
         (blank_non_boolean elems).
  split; [done|]. split; [|split].
  - rewrite migrateWeaponType_other, weapon_migrateProficient_other by done.
    apply lookup_insert_eq.
  - unfold blank_non_boolean. apply length_fmap.
  - intros i e He. rewrite blank_non_boolean_lookup, He. cbn. f_equal.
    by destruct e as [[]|].
Qed.

Lemma boolean_to_number_field host key (s : gmap string JsVal) :
  field (if typeof_is (field s key) "boolean"
         then <[key := JNum (Number_ host (field s key))]> s else s) key
  = proficient_number (field s key).
Proof.
  destruct (field s key) as [| |b|n|t|elems|m] eqn:Hf;
    try (change (typeof_is _ "boolean") with false; cbv iota; by rewrite Hf).
  change (typeof_is _ "boolean") with true. cbv iota.
  unfold field. by rewrite lookup_insert_eq.
Qed.

Lemma proficient_number_not_boolean v :
  typeof_is (proficient_number v) "boolean" = false.
Proof. by destruct v. Qed.

(** X4. After a weapon or equipment migration [proficient] is never a
    boolean: [true] has become 1, [false] 0, and any other value is as it
    was. *)
Theorem proficient_flag_becomes_number host inherited k
    (source out : gmap string JsVal) :
  k = weapon ∨ k = equipment →
  migrate host inherited k source = Normal out →
  field out "proficient"
    = proficient_number (field (inherited k source) "proficient") ∧
  typeof_is (field out "proficient") "boolean" = false.
Proof.
  intros Hk Hm.
  assert (field out "proficient"
          = proficient_number (field (inherited k source) "proficient")) as ->.
  { destruct Hk as [-> | ->].
    - apply weapon_migrate_inv in Hm as (s1 & E1 & ->).
      unfold field at 1. rewrite migrateWeaponType_other by done.
      fold (field (WeaponData.migrateProficient host s1) "proficient").
      unfold WeaponData.migrateProficient. rewrite boolean_to_number_field.
      unfold field. by rewrite (migratePropertiesData_other _ _ _ E1).
    - apply equipment_migrate_inv in Hm as (s1 & E1 & ->).
      unfold EquipmentData.migrateProficient. rewrite boolean_to_number_field.
      unfold field. rewrite migrateStrength_other by done.
      by rewrite (migrateArmor_other _ _ _ _ E1). }
  split; [done | apply proficient_number_not_boolean].
Qed.

(** X5. After a weapon migration [weaponType] is never [null]: [null]
    has become ["simpleM"], and any other value, or the absence of the
    key, is as it was. *)
Theorem weapon_type_never_null host inherited (source out : gmap string JsVal) :
  migrate host inherited weapon source = Normal out →
  is_null (field out "weaponType") = false ∧
  (inherited weapon source !! "weaponType" = Some JNull →
   out !! "weaponType" = Some (JStr "simpleM")) ∧
  (inherited weapon source !! "weaponType" ≠ Some JNull →
   out !! "weaponType" = inherited weapon source !! "weaponType").
Proof.
  intros (s1 & E1 & ->)%weapon_migrate_inv.
  assert (WeaponData.migrateProficient host s1 !! "weaponType"
          = inherited weapon source !! "weaponType") as Hw.
  { rewrite weapon_migrateProficient_other by done.
    by apply (migratePropertiesData_other _ _ _ E1). }
  unfold WeaponData.migrateWeaponType, field. rewrite Hw.
  destruct (inherited weapon source !! "weaponType") as [[| |b|n|t|elems|m]|];
    cbn [default from_option id is_null];
    rewrite ?lookup_insert_eq, ?Hw; cbn [default from_option id is_null];
    (split; [done|]); split; congruence.
Qed.

Lemma is_string_true v s : is_string v s = true ↔ v = JStr s.
Proof.
  destruct v; cbn; try (split; [done | by intros [=]]).
  rewrite bool_decide_eq_true. split; [by intros -> | by intros [= ->]].
Qed.

Lemma coerced_dex_type host (m : gmap string JsVal) :
  coerced_dex host m !! "type" = m !! "type".
Proof.
  unfold coerced_dex. cbv zeta.
  destruct (typeof_is _ _); [|done].
  destruct (is_string _ _); [by rewrite lookup_insert_ne|].
  destruct (Number_isNumeric _ _); [by rewrite lookup_insert_ne | done].
Qed.

Lemma settled_armor_type host armor0 t :
  get_prop (settled_armor host armor0) "type" = Normal t →
  t ≠ JStr "bonus" ∧
  (get_prop armor0 "type" = Normal (JStr "bonus") → t = JStr "trinket") ∧
  (∀ t0, get_prop armor0 "type" = Normal t0 → t0 ≠ JStr "bonus" → t = t0).
Proof.
  destruct armor0 as [| |b|n|s|elems|m]; cbn [settled_armor get_prop];
    try (intros [= <-]; split; [done|]; split; [done | by intros t0 [= <-]]).
  rewrite coerced_dex_type. unfold renamed_type.
  destruct (is_string (default JUndefined (m !! "type")) "bonus") eqn:Hb.
  - rewrite lookup_insert_eq. intros [= <-]. split; [done|]. split; [done|].
    intros t0 [= <-] Hne. by apply is_string_true in Hb.
  - intros [= <-]. split.
    + intros Ht. apply is_string_true in Ht. congruence.
    + split; [|by intros t0 [= <-]].
      intros [= Ht]. apply is_string_true in Ht. congruence.
Qed.

Lemma equipment_armor_entry host inherited (source out : gmap string JsVal) :
  migrate host inherited equipment source = Normal out →
  out !! "armor" = settled_armor host <$> inherited equipment source !! "armor".
Proof.
  intros (s1 & E1 & ->)%equipment_migrate_inv.
  rewrite equipment_migrateProficient_other, migrateStrength_other by done.
  destruct (inherited equipment source !! "armor") as [armor0|] eqn:Ha.
  - rewrite (migrateArmor_result host _ _ Ha) in E1. injection E1 as <-.
    apply lookup_insert_eq.
  - unfold EquipmentData.migrateArmor in E1. rewrite Ha in E1.
    injection E1 as <-. by rewrite Ha.
Qed.

(** X6. After an equipment migration a source without [armor] key still
    has none; otherwise [armor] is neither [null] nor [undefined] (an empty
    object takes their place), its [type] can be read and is never
    ["bonus"]: ["bonus"] has become ["trinket"], any other type is as it
    was. *)
Theorem armor_after_migration host inherited (source out : gmap string JsVal) :
  migrate host inherited equipment source = Normal out →
  (inherited equipment source !! "armor" = None → out !! "armor" = None) ∧
  ∀ armor0, inherited equipment source !! "armor" = Some armor0 →
    ∃ armor t, out !! "armor" = Some armor ∧
      nullish armor = false ∧
      (nullish armor0 = true → armor = JObj ∅) ∧
      get_prop armor "type" = Normal t ∧ t ≠ JStr "bonus" ∧
      (get_prop armor0 "type" = Normal (JStr "bonus") → t = JStr "trinket") ∧
      (∀ t0, get_prop armor0 "type" = Normal t0 → t0 ≠ JStr "bonus" → t = t0).
Proof.
  intros Hm%equipment_armor_entry. split.
  - intros Ha. by rewrite Hm, Ha.
  - intros armor0 Ha. rewrite Ha in Hm. cbn in Hm.
    assert (nullish (settled_armor host armor0) = false) as Hn
      by (by destruct armor0).
    destruct (get_prop (settled_armor host armor0) "type") as [t|e] eqn:Ht;
      [|by destruct (settled_armor host armor0)].
    exists (settled_armor host armor0), t.
    split; [done|]. split; [done|]. split; [by destruct armor0|].
    split; [done|]. by apply (settled_armor_type host armor0).
Qed.

(** X7. The own steps of a kind leave every other top-level field alone:
    a key outside [own_keys] holds after migration what the inherited
    migrations handed on. *)
Theorem migration_leaves_other_fields host inherited k
    (source out : gmap string JsVal) key :
  key ∉ own_keys k →
  migrate host inherited k source = Normal out →
  out !! key = inherited k source !! key.
Proof.
  destruct k; cbn [own_keys]; rewrite ?not_elem_of_cons; intros Hkey Hm.
  - destruct Hkey as (H1 & H2 & H3 & _).
    apply weapon_migrate_inv in Hm as (s1 & E1 & ->).
    rewrite migrateWeaponType_other, weapon_migrateProficient_other by done.
    by apply (migratePropertiesData_other _ _ _ E1).
  - destruct Hkey as (H1 & H2 & H3 & _).
    apply equipment_migrate_inv in Hm as (s1 & E1 & ->).
    rewrite equipment_migrateProficient_other, migrateStrength_other by done.
    by apply (migrateArmor_other _ _ _ _ E1).
  - destruct Hkey as (H1 & _).
    unfold migrate, ToolData.migrateData in Hm. injection Hm as <-.
    unfold ToolData.migrateAbility.
    destruct (field _ _); try done. by rewrite lookup_insert_ne.
  - unfold migrate, ConsumableData.migrateData in Hm. by injection Hm as <-.
Qed.

Lemma field_is_Some (s : gmap string JsVal) key :
  field s key ≠ JUndefined → is_Some (s !! key).
Proof. unfold field. destruct (s !! key); [by eexists | done]. Qed.

Lemma dom_insert_field (s : gmap string JsVal) key v :
  field s key ≠ JUndefined → dom (<[key := v]> s) = dom s.
Proof. intros H%field_is_Some. by apply dom_insert_lookup_L. Qed.

Lemma dom_boolean_to_number host key (s : gmap string JsVal) :
  dom (if typeof_is (field s key) "boolean"
       then <[key := JNum (Number_ host (field s key))]> s else s) = dom s.
Proof.
  destruct (typeof_is (field s key) "boolean") eqn:Hb; [|done].
  apply dom_insert_field. intros Hu. by rewrite Hu in Hb.
Qed.

Lemma dom_migrateWeaponType (s : gmap string JsVal) :
  dom (WeaponData.migrateWeaponType s) = dom s.
Proof.
  unfold WeaponData.migrateWeaponType.
  destruct (is_null (field s "weaponType")) eqn:Hb; [|done].
  apply dom_insert_field. intros Hu. by rewrite Hu in Hb.
Qed.

Lemma dom_migratePropertiesData (s s' : gmap string JsVal) :
  WeaponData.migratePropertiesData s = Normal s' → dom s' = dom s.
Proof.
  unfold WeaponData.migratePropertiesData.
  destruct (negb (truthy (field s "properties"))) eqn:Ht; [by intros [= <-]|].
  intros (entries & _ & (p' & _ & [= <-])%cbind_Normal_inv)%cbind_Normal_inv.
  apply dom_insert_field. intros Hu. by rewrite Hu in Ht.
Qed.

Lemma dom_migrateArmor host (s s' : gmap string JsVal) :
  EquipmentData.migrateArmor host s = Normal s' → dom s' = dom s.
Proof.
  destruct (s !! "armor") as [armor0|] eqn:Ha.
  - rewrite (migrateArmor_result host _ _ Ha). intros [= <-].
    by apply dom_insert_lookup_L.
  - unfold EquipmentData.migrateArmor. rewrite Ha. by intros [= <-].
Qed.

Lemma dom_migrateStrength host (s : gmap string JsVal) :
  dom (EquipmentData.migrateStrength host s) = dom s.
Proof.
  unfold EquipmentData.migrateStrength.
  destruct (negb (typeof_is (field s "strength") "string")) eqn:Hs; [done|].
  assert (field s "strength" ≠ JUndefined) as Hu
    by (intros Hu; by rewrite Hu in Hs).
  destruct (is_string (field s "strength") "").
  - destruct (Number_isNumeric _ _); rewrite ?insert_insert_eq;
      by apply dom_insert_field.
  - destruct (Number_isNumeric _ _); [by apply dom_insert_field | done].
Qed.

(** X8. Migration neither adds nor removes a top-level field: the keys of
    the result are those handed on by the inherited migrations. *)
Theorem migration_keeps_field_names host inherited k
    (source out : gmap string JsVal) :
  migrate host inherited k source = Normal out →
  dom out = dom (inherited k source).
Proof.
  destruct k; intros Hm.
  - apply weapon_migrate_inv in Hm as (s1 & E1 & ->).
    rewrite dom_migrateWeaponType. unfold WeaponData.migrateProficient.
    rewrite dom_boolean_to_number. by apply dom_migratePropertiesData.
  - apply equipment_migrate_inv in Hm as (s1 & E1 & ->).
    unfold EquipmentData.migrateProficient.
    rewrite dom_boolean_to_number, dom_migrateStrength.
    by apply (dom_migrateArmor host).
  - unfold migrate, ToolData.migrateData in Hm. injection Hm as <-.
    unfold ToolData.migrateAbility.
    destruct (field (inherited tool source) "ability") eqn:Hf; try done.
    apply dom_insert_field. by rewrite Hf.
  - unfold migrate, ConsumableData.migrateData in Hm. by injection Hm as <-.
Qed.

(** X9. Tool migration always completes: an [ability] that is an array
    is replaced by its first element ([undefined] for an empty array), a
    source with any other [ability] is returned unchanged, and the result
    still holds an array exactly when the array was nested. *)
Theorem tool_ability_collapsed host inherited (source : gmap string JsVal) :
  ∃ out, migrate host inherited tool source = Normal out ∧
    (∀ elems, field (inherited tool source) "ability" = JArr elems →
       out !! "ability" = Some (first_element elems)) ∧
    (Array_isArray (field (inherited tool source) "ability") = false →
       out = inherited tool source) ∧
    Array_isArray (field out "ability") = ability_nested (inherited tool source).
Proof.
  unfold migrate, ToolData.migrateData. eexists. split; [done|].
  unfold ToolData.migrateAbility, ability_nested.
  destruct (field (inherited tool source) "ability")
    as [| |b|n|t|elems|m] eqn:Hf; rewrite ?Hf;
    try (split; [done|]; split; [done|]; done).
  split; [|split; [done|]].
  - intros elems' [= <-]. apply lookup_insert_eq.
  - unfold field. by rewrite lookup_insert_eq.
Qed.

(** ** Further properties of the proficiency multiplier *)

Lemma no_override_proficient it :
  proficiency_override it = None →
  match proficient_field it with
  | Some (Some (Finite _)) => False
  | _ => True
  end.
Proof.
  unfold proficiency_override.
  by destruct (proficient_field it) as [[[| | |q]|]|].
Qed.

(** X10. An item of any of the four kinds that has neither a finite
    override nor an owning actor has the proficiency multiplier 0. *)
Theorem unowned_item_not_proficient cfg it :
  proficiency_override it = None → owner it = None →
  proficiencyMultiplier cfg it = Finite 0.
Proof.
  intros Hq%no_override_proficient Ho. unfold owner in Ho.
  destruct it as [w|e|t|c]; cbn [proficient_field proficiencyMultiplier parent_of] in *.
  - unfold WeaponData.proficiencyMultiplier. rewrite Ho.
    by destruct (WeaponData.proficient w) as [[| | |q']|].
  - unfold EquipmentData.proficiencyMultiplier. rewrite Ho.
    by destruct (EquipmentData.proficient e) as [[| | |q']|].
  - unfold ToolData.proficiencyMultiplier. rewrite Ho.
    by destruct (ToolData.proficient t) as [[| | |q']|].
  - unfold ConsumableData.proficiencyMultiplier. by rewrite Ho.
Qed.

Lemma Number_of_bool_binary b :
  Number_of_bool b = Finite 0 ∨ Number_of_bool b = Finite 1.
Proof. destruct b; [by right | by left]. Qed.

(** X11. Without a finite override the proficiency multiplier of a
    weapon, a piece of equipment or a consumable is 0 or 1, whoever owns
    it. *)
Theorem multiplier_is_zero_or_one cfg it :
  kind_of it ≠ tool → proficiency_override it = None →
  proficiencyMultiplier cfg it = Finite 0 ∨ proficiencyMultiplier cfg it = Finite 1.
Proof.
  intros Hk Hq%no_override_proficient.
  destruct it as [w|e|t|c]; cbn [proficient_field proficiencyMultiplier] in *.
  - unfold WeaponData.proficiencyMultiplier.
    destruct (WeaponData.proficient w) as [[| | |q']|]; try done;
      (destruct (item_actor _) as [actor|]; [|by left]);
      (case_bool_decide; [by right | apply Number_of_bool_binary]).
  - unfold EquipmentData.proficiencyMultiplier.
    destruct (EquipmentData.proficient e) as [[| | |q']|]; try done;
      (destruct (item_actor _) as [actor|]; [|by left]);
      (case_bool_decide; [by right | apply Number_of_bool_binary]).
  - done.
  - unfold ConsumableData.proficiencyMultiplier.
    destruct (truthy _); [by right | by left].
Qed.

Lemma Set_has_more (tags extra : gset string) v :
  Set_has tags v = true → Set_has (tags ∪ extra) v = true.
Proof.
  destruct v; cbn; try done. rewrite !bool_decide_eq_true.
  apply elem_of_union_l.
Qed.

Lemma Number_of_bool_one b : Number_of_bool b = Finite 1 ↔ b = true.
Proof. destruct b; cbn; split; try done. Qed.

Lemma orb_true_more (a b c d a' b' : bool) :
  (a = true → a' = true) → (b = true → b' = true) →
  c || d || a || b = true → c || d || a' || b' = true.
Proof. destruct a, b, c, d, a', b'; cbn; auto. Qed.

Lemma orb_true_more3 (c a b a' b' : bool) :
  (a = true → a' = true) → (b = true → b' = true) →
  c || a || b = true → c || a' || b' = true.
Proof. destruct a, b, c, a', b'; cbn; auto. Qed.

(** X12. Granting an owner further weapon and armor proficiency tags
    never takes proficiency away: an item with multiplier 1 keeps it. *)
Theorem more_tags_keep_proficiency cfg it actor extra :
  proficiencyMultiplier cfg (with_owner actor it) = Finite 1 →
  proficiencyMultiplier cfg (with_owner (with_more_tags extra actor) it) = Finite 1.
Proof.
  destruct it as [w|e|t|c];
    cbn [with_owner with_parent proficiencyMultiplier].
  - unfold WeaponData.proficiencyMultiplier.
    cbn [WeaponData.proficient WeaponData.parent item_actor
         WeaponData.weaponType WeaponData.baseItem
         with_more_tags actor_type actor_weaponProf].
    destruct (WeaponData.proficient w) as [[| | |q']|]; try done;
      (case_bool_decide; [done|]);
      rewrite !Number_of_bool_one;
      change (getFlag (with_more_tags extra actor)) with (getFlag actor);
      cbn [default from_option id];
      apply orb_true_more; apply Set_has_more.
  - unfold EquipmentData.proficiencyMultiplier.
    cbn [EquipmentData.proficient EquipmentData.parent item_actor
         EquipmentData.armor_type EquipmentData.baseItem
         with_more_tags actor_type actor_armorProf].
    destruct (EquipmentData.proficient e) as [[| | |q']|]; try done;
      (case_bool_decide as Hnpc; [done|]);
      rewrite !Number_of_bool_one;
      cbn [default from_option id];
      apply orb_true_more3; apply Set_has_more.
  - done.
  - done.
Qed.

Lemma Math_max_finite p q :
  ∃ r, Math_max (Finite p) (Finite q) = Finite r ∧
       (r = p ∨ r = q) ∧ Qle p r ∧ Qle q r.
Proof.
  cbn. destruct (Qle_bool p q) eqn:Hle.
  - exists q. split; [done|]. split; [by right|].
    split; [by apply Qle_bool_iff | apply Qle_refl].
  - exists p. split; [done|]. split; [by left|]. split; [apply Qle_refl|].
    destruct (Qlt_le_dec p q) as [Hlt|Hge]; [|done].
    apply Qlt_le_weak, Qle_bool_iff in Hlt. congruence.
Qed.

(** X13. For a tool without override whose owner is not an npc and
    records finite levels for the tool's base item and category, the
    multiplier is one of the two levels and at least both. *)
Theorem tool_multiplier_is_higher_level (t : ToolData.data) actor p q :
  ToolData.proficient t = None →
  item_actor (ToolData.parent t) = Some actor →
  actor_type actor ≠ "npc" →
  tool_level actor (ToolData.baseItem t) = Finite p →
  tool_level actor (ToolData.toolType t) = Finite q →
  ∃ r, ToolData.proficiencyMultiplier t = Finite r ∧
       (r = p ∨ r = q) ∧ Qle p r ∧ Qle q r.
Proof.
  intros Hp Ho Hpc Hb Hc. unfold ToolData.proficiencyMultiplier.
  rewrite Hp, Ho, bool_decide_eq_false_2 by done.
  unfold tool_level in Hb, Hc. rewrite Hb, Hc. apply Math_max_finite.
Qed.

(** ** Further properties of the character sheet *)

Section sheet.
Import ActorSheet5eCharacter.

Lemma not_inventory_type ty :
  ty ∈ ["spell"; "feat"; "background"; "class"; "subclass"] →
  ty ∉ inventory_types.
Proof.
  rewrite !elem_of_cons, elem_of_nil.
  intros [->|[->|[->|[->|[->|[]]]]]];
    apply (proj1 (bool_decide_eq_false _)); reflexivity.
Qed.

Lemma partition_items_from acc l :
  foldl classify acc l =
  {| p_items := p_items acc ++ filter (λ i, type i ∈ inventory_types) l;
     p_spells := p_spells acc ++ filter (λ i, type i = "spell") l;
     p_feats := p_feats acc ++ filter (λ i, type i = "feat") l;
     p_backgrounds := p_backgrounds acc ++ filter (λ i, type i = "background") l;
     p_classes := p_classes acc ++ filter (λ i, type i = "class") l;
     p_subclasses := p_subclasses acc ++ filter (λ i, type i = "subclass") l |}.
Proof.
  revert acc. induction l as [|x l IH]; intros acc.
  - destruct acc. cbn. by rewrite !app_nil_r.
  - cbn [foldl]. rewrite IH. clear IH. destruct acc as [its sp fe bg cl sc].
    unfold classify. rewrite !filter_cons.
    assert (type x ∈ ["spell"; "feat"; "background"; "class"; "subclass"] →
            type x ∉ inventory_types) as Hno by apply not_inventory_type.
    rewrite !elem_of_cons in Hno.
    repeat case_bool_decide;
      cbn [p_items p_spells p_feats p_backgrounds p_classes p_subclasses];
      repeat (case_decide; try congruence; try (exfalso; tauto));
      by rewrite <- ?(assoc_L (++)).
Qed.

Lemma partition_items_filters l :
  partition_items l =
  {| p_items := filter (λ i, type i ∈ inventory_types) l;
     p_spells := filter (λ i, type i = "spell") l;
     p_feats := filter (λ i, type i = "feat") l;
     p_backgrounds := filter (λ i, type i = "background") l;
     p_classes := filter (λ i, type i = "class") l;
     p_subclasses := filter (λ i, type i = "subclass") l |}.
Proof. unfold partition_items. by rewrite partition_items_from. Qed.

(** X14. The first pass of [_prepareItems] sends every item to the
    partition of its type and keeps the order: spells, feats, backgrounds,
    classes and subclasses by their type, the six inventory types into
    [items], and any other type nowhere. So an item is in a partition
    exactly when its type is one of the eleven, and then in that one
    only. *)
Theorem partition_by_type l :
  partition_items l =
  {| p_items := filter (λ i, type i ∈ inventory_types) l;
     p_spells := filter (λ i, type i = "spell") l;
     p_feats := filter (λ i, type i = "feat") l;
     p_backgrounds := filter (λ i, type i = "background") l;
     p_classes := filter (λ i, type i = "class") l;
     p_subclasses := filter (λ i, type i = "subclass") l |} ∧
  ∀ i, i ∈ l →
    (type i ∈ ["spell"; "feat"; "background"; "class"; "subclass"]
     → i ∉ p_items (partition_items l)) ∧
    (type i ∉ (["spell"; "feat"; "background"; "class"; "subclass"]
                 ++ inventory_types) →
     (i ∉ p_items (partition_items l)) ∧ (i ∉ p_spells (partition_items l)) ∧
     (i ∉ p_feats (partition_items l)) ∧ (i ∉ p_backgrounds (partition_items l)) ∧
     (i ∉ p_classes (partition_items l)) ∧ (i ∉ p_subclasses (partition_items l))).
Proof.
  split; [apply partition_items_filters|].
  intros i Hi. rewrite partition_items_filters.
  cbn [p_items p_spells p_feats p_backgrounds p_classes p_subclasses].
  rewrite !list_elem_of_filter. split.
  - intros Hty [Hinv _]. by apply (not_inventory_type (type i)).
  - rewrite not_elem_of_app, !not_elem_of_cons. intros [Hty Hinv].
    repeat split; intros [Hn _]; tauto.
Qed.

Lemma insert_class_perm c l : insert_class c l ≡ₚ c :: l.
Proof.
  induction l as [|d l IH]; [done|]. cbn.
  destruct (levels d - levels c <=? 0)%Z; [done|].
  rewrite IH. apply Permutation_swap.
Qed.

Lemma sort_classes_perm l : sort_classes l ≡ₚ l.
Proof.
  induction l as [|c l IH]; [done|]. cbn.
  by rewrite insert_class_perm, IH.
Qed.

Lemma insert_class_sorted c l :
  StronglySorted by_level_desc l → StronglySorted by_level_desc (insert_class c l).
Proof.
  induction 1 as [|d l Hs IH Hd]; cbn; [repeat constructor|].
  destruct (levels d - levels c <=? 0)%Z eqn:Hle.
  - apply Z.leb_le in Hle. constructor; [by constructor|].
    constructor; [unfold by_level_desc; lia|].
    eapply Forall_impl; [exact Hd|]. unfold by_level_desc. intros; cbn in *; lia.
  - apply Z.leb_gt in Hle. constructor; [done|].
    rewrite insert_class_perm. constructor; [unfold by_level_desc; lia | done].
Qed.

Lemma insert_class_same_level c l :
  filter (λ x, levels x = levels c) (insert_class c l)
  = c :: filter (λ x, levels x = levels c) l.
Proof.
  induction l as [|d l IH]; cbn [insert_class].
  - by rewrite filter_cons_True.
  - destruct (levels d - levels c <=? 0)%Z eqn:Hle.
    + by rewrite (filter_cons_True _ c).
    + apply Z.leb_gt in Hle. rewrite !(filter_cons_False _ d) by lia. done.
Qed.

Lemma insert_class_other_level c l n :
  levels c ≠ n →
  filter (λ x, levels x = n) (insert_class c l) = filter (λ x, levels x = n) l.
Proof.
  intros Hn. induction l as [|d l IH]; cbn [insert_class].
  - by rewrite filter_cons_False.
  - destruct (levels d - levels c <=? 0)%Z.
    + by rewrite (filter_cons_False _ c).
    + by rewrite !(filter_cons _ d), IH.
Qed.

(** X15. Sorting the classes rearranges them, puts higher levels first,
    and keeps classes of equal level in their order. *)
Theorem sort_classes_sorted_stable l :
  sort_classes l ≡ₚ l ∧
  StronglySorted by_level_desc (sort_classes l) ∧
  ∀ n, filter (λ c, levels c = n) (sort_classes l) = filter (λ c, levels c = n) l.
Proof.
  split; [apply sort_classes_perm|]. split.
  - induction l as [|c l IH]; [constructor|]. by apply insert_class_sorted.
  - intros n. induction l as [|c l IH]; [done|]. cbn [sort_classes foldr].
    destruct (decide (levels c = n)) as [<-|Hn].
    + by rewrite insert_class_same_level, filter_cons_True, <- IH.
    + by rewrite insert_class_other_level, filter_cons_False, <- IH.
Qed.

Lemma findSplice_first_match {A : Type} (find : A → bool) (l : list A) :
  match findSplice find l with
  | (Some x, rest) =>
      ∃ before after,
        l = before ++ x :: after ∧ rest = before ++ after ∧
        find x = true ∧ Forall (λ y, find y = false) before
  | (None, rest) => rest = l ∧ Forall (λ y, find y = false) l
  end.
Proof.
  induction l as [|y l IH]; cbn; [by split|].
  destruct (find y) eqn:Hy.
  - exists [], l. by repeat split.
  - destruct (findSplice find l) as [[x|] rest].
    + destruct IH as (before & after & -> & -> & Hx & Hb).
      exists (y :: before), after. repeat split; try done. by constructor.
    + destruct IH as [-> Hl]. split; [done | by constructor].
Qed.
End sheet.

Section pairing.
Import ActorSheet5eCharacter.

Lemma prepareItems_fields host cfg this l ws :
  feature_items (_prepareItems host cfg this l ws) 1
    = Some (pair_classes host cfg this l).1.1 ∧
  warnings (_prepareItems host cfg this l ws)
    = ws ++ (mismatch_warning host <$> unmatched_subclasses host cfg this l) ∧
  availableLevels (_prepareItems host cfg this l ws)
    = (pair_classes host cfg this l).2 ∧
  feature_items (_prepareItems host cfg this l ws) 2
    = Some (filter (λ f, truthy (activation_type f) = true)
              (_filterItems (p_feats (partition_items l)) (filters_features this)
               ++ unmatched_subclasses host cfg this l)) ∧
  feature_items (_prepareItems host cfg this l ws) 3
    = Some (filter (λ f, truthy (activation_type f) = false)
              (_filterItems (p_feats (partition_items l)) (filters_features this)
               ++ unmatched_subclasses host cfg this l)).
Proof.
  unfold _prepareItems, unmatched_subclasses, pair_classes.
  destruct (partition_items l) as [its sp fe bg cl sc].
  cbn [p_subclasses p_classes p_feats].
  by destruct (foldl _ _ _) as [[arr subs] ctx].
Qed.

Lemma block_items_snoc (blocks : list (item * option item)) b :
  block_items (blocks ++ [b]) = block_items blocks ++ b.1 :: option_list b.2.
Proof.
  unfold block_items. rewrite bind_app. cbn. by rewrite app_nil_r.
Qed.

Lemma pair_class_blocks host cfg this cs :
  ∀ (blocks : list (item * option item)) subs ctx,
    Forall (block_matches host) blocks →
    Forall (block_unclaimed host subs) blocks →
    ∃ blocks' subs' ctx',
      foldl (pair_class host cfg this) (block_items blocks, subs, ctx) cs
        = (block_items (blocks ++ blocks'), subs', ctx') ∧
      fst <$> blocks' = cs ∧
      Forall (block_matches host) (blocks ++ blocks') ∧
      Forall (block_unclaimed host subs') (blocks ++ blocks') ∧
      omap snd blocks' ++ subs' ≡ₚ subs.
Proof.
  induction cs as [|c cs IH]; intros blocks subs ctx Hm Hu.
  - exists [], subs, ctx. rewrite app_nil_r. by repeat split.
  - cbn [foldl]. unfold pair_class at 2. fold (class_key host c).
    pose proof (findSplice_first_match
      (λ s, bool_decide (classIdentifier s = class_key host c)) subs) as Hf.
    destruct (findSplice _ subs) as [[x|] rest].
    + destruct Hf as (before & after & -> & -> & Hx & Hb).
      apply bool_decide_eq_true in Hx.
      rewrite <- (assoc_L (++)). cbn [app].
      change (block_items blocks ++ [c; x])
        with (block_items blocks ++ (c, Some x).1 :: option_list (c, Some x).2).
      rewrite <- block_items_snoc.
      destruct (IH (blocks ++ [(c, Some x)]) (before ++ after)
                  (<[id c := level_options cfg this c]> ctx))
        as (blocks' & subs' & ctx' & E & Hfst & Hm' & Hu' & Hp).
      * apply Forall_app. split; [done|]. constructor; [|done].
        intros s [= <-]. done.
      * apply Forall_app. split.
        -- eapply Forall_impl; [exact Hu|]. intros b Hb' Hnone.
           specialize (Hb' Hnone). apply Forall_app in Hb' as [H1 H2].
           apply Forall_app. split; [done|]. by apply Forall_cons in H2 as [_ H2].
        -- constructor; [|done]. by intros [=].
      * exists ((c, Some x) :: blocks'), subs', ctx'.
        rewrite <- (assoc_L (++)) in E, Hm', Hu'. cbn [app] in E, Hm', Hu'.
        split; [done|]. split; [by cbn; rewrite Hfst|].
        split; [done|]. split; [done|].
        change (omap snd ((c, Some x) :: blocks')) with (x :: omap snd blocks').
        cbn [app]. rewrite Hp. apply Permutation_middle.
    + destruct Hf as [-> Hall].
      change (block_items blocks ++ [c])
        with (block_items blocks
              ++ (c, @None item).1 :: option_list (c, @None item).2).
      rewrite <- block_items_snoc.
      destruct (IH (blocks ++ [(c, None)]) subs
                  (<[id c := level_options cfg this c]> ctx))
        as (blocks' & subs' & ctx' & E & Hfst & Hm' & Hu' & Hp).
      * apply Forall_app. split; [done|]. constructor; [|done]. by intros s [=].
      * apply Forall_app. split; [done|]. constructor; [|done].
        intros _. eapply Forall_impl; [exact Hall|].
        intros s Hs. by apply bool_decide_eq_false in Hs.
      * exists ((c, None) :: blocks'), subs', ctx'.
        rewrite <- (assoc_L (++)) in E, Hm', Hu'. cbn [app] in E, Hm', Hu'.
        split; [done|]. split; [by cbn; rewrite Hfst|].
        split; [done|]. split; [done|]. done.
Qed.

(** X16. The class section of the sheet consists of the classes in
    sorted order, each followed by at most one subclass, and that subclass
    names the class it follows. Every subclass is either placed so or left
    unmatched, none twice; a class shown without subclass is named by no
    unmatched subclass; and the warnings grow by one per unmatched
    subclass, in order. *)
Theorem class_section_pairs host cfg this l ws :
  ∃ blocks,
    feature_items (_prepareItems host cfg this l ws) 1 = Some (block_items blocks) ∧
    fst <$> blocks = sort_classes (filter (λ i, type i = "class") l) ∧
    Forall (block_matches host) blocks ∧
    Forall (block_unclaimed host (unmatched_subclasses host cfg this l)) blocks ∧
    omap snd blocks ++ unmatched_subclasses host cfg this l
      ≡ₚ filter (λ i, type i = "subclass") l ∧
    warnings (_prepareItems host cfg this l ws)
      = ws ++ (mismatch_warning host <$> unmatched_subclasses host cfg this l).
Proof.
  destruct (prepareItems_fields host cfg this l ws) as (H1 & Hw & _).
  unfold unmatched_subclasses in *. unfold pair_classes in *.
  rewrite partition_items_filters in *. cbn [p_classes p_subclasses] in *.
  destruct (pair_class_blocks host cfg this
              (sort_classes (filter (λ i, type i = "class") l))
              [] (filter (λ i, type i = "subclass") l) ∅)
    as (blocks & subs' & ctx' & E & Hfst & Hm & Hu & Hp); [done..|].
  change (block_items []) with (@nil item) in E. rewrite E in *. cbn [fst snd] in *.
  exists blocks. by repeat split.
Qed.

Lemma filter_truthy_split (l : list item) :
  filter (λ f, truthy (activation_type f) = true) l
  ++ filter (λ f, truthy (activation_type f) = false) l ≡ₚ l.
Proof.
  induction l as [|x l IH]; [done|]. rewrite !filter_cons.
  destruct (truthy (activation_type x)) eqn:Hx.
  - rewrite decide_True, decide_False by done. cbn. by rewrite IH.
  - rewrite decide_False, decide_True by done.
    rewrite <- Permutation_middle. by rewrite IH.
Qed.

(** X17. The feats that survive the filter, together with the unmatched
    subclasses (which no filter sees), are split between the active and
    the passive section: each lands in exactly one, the active ones are
    those with an activation type. *)
Theorem feature_split host cfg this l ws :
  ∃ active passive,
    feature_items (_prepareItems host cfg this l ws) 2 = Some active ∧
    feature_items (_prepareItems host cfg this l ws) 3 = Some passive ∧
    Forall (λ f, truthy (activation_type f) = true) active ∧
    Forall (λ f, truthy (activation_type f) = false) passive ∧
    active ++ passive
      ≡ₚ _filterItems (filter (λ i, type i = "feat") l) (filters_features this)
         ++ unmatched_subclasses host cfg this l.
Proof.
  destruct (prepareItems_fields host cfg this l ws) as (_ & _ & _ & H2 & H3).
  rewrite partition_items_filters in H2, H3. cbn [p_feats] in H2, H3.
  do 2 eexists. split; [exact H2|]. split; [exact H3|].
  split; [|split].
  - apply Forall_forall. by intros f [Hf _]%list_elem_of_filter.
  - apply Forall_forall. by intros f [Hf _]%list_elem_of_filter.
  - apply filter_truthy_split.
Qed.
End pairing.

Section levels.
Import ActorSheet5eCharacter.

Lemma fromRange_slice n : slice1 (Array_fromRange (n + 1)) = seqZ 1 n.
Proof.
  unfold slice1, Array_fromRange, seqZ.
  destruct (decide (0 ≤ n)%Z) as [Hn|Hn].
  - replace (Z.to_nat (n + 1)) with (S (Z.to_nat n)) by lia.
    cbn [seq fmap list_fmap drop]. rewrite <- fmap_S_seq, <- list_fmap_compose.
    apply list_fmap_ext. intros _ i _. cbn. lia.
  - replace (Z.to_nat (n + 1)) with 0%nat by lia.
    by replace (Z.to_nat n) with 0%nat by lia.
Qed.

(** X18. For any configuration, sheet and class: the level options are
    the levels 1 to [maxLevel] in order (none when [maxLevel] is not
    positive), the delta of an option is its level minus the class's
    current level, and an option is enabled exactly when the levels of the
    other classes plus that level stay within [maxLevel]. *)
Theorem level_options_general cfg this cls :
  level <$> level_options cfg this cls = seqZ 1 (maxLevel cfg) ∧
  Forall (λ o, delta o = (level o - levels cls)%Z ∧
               (disabled o = false ↔
                (actor_level this - levels cls + level o ≤ maxLevel cfg)%Z))
         (level_options cfg this cls).
Proof.
  unfold level_options. rewrite fromRange_slice. split.
  - rewrite <- list_fmap_compose. cbn. apply list_fmap_id.
  - apply Forall_fmap, Forall_forall. intros lv _. cbn. split; [done|].
    rewrite bool_decide_eq_false. lia.
Qed.

Lemma pair_class_ctx host cfg this cs st :
  (foldl (pair_class host cfg this) st cs).2
  = foldl (λ ctx c, <[id c := level_options cfg this c]> ctx) st.2 cs.
Proof.
  revert st. induction cs as [|c cs IH]; intros [[arr subs] ctx]; [done|].
  cbn [foldl]. rewrite IH. unfold pair_class.
  by destruct (findSplice _ _) as [[x|] rest].
Qed.

Lemma recorded_options cfg this cs (ctx : gmap string (list LevelOption)) c :
  NoDup (id <$> cs) → c ∈ cs →
  foldl (λ ctx c, <[id c := level_options cfg this c]> ctx) ctx cs !! id c
  = Some (level_options cfg this c).
Proof.
  revert ctx. induction cs as [|d cs IH]; intros ctx Hnd Hc.
  - by apply elem_of_nil in Hc.
  - cbn [foldl]. rewrite fmap_cons in Hnd. apply NoDup_cons in Hnd as [Hd Hnd].
    apply elem_of_cons in Hc as [->|Hc]; [|by apply IH].
    clear IH. revert ctx. induction cs as [|e cs IH]; intros ctx.
    + apply lookup_insert_eq.
    + cbn [foldl]. rewrite fmap_cons in Hd, Hnd.
      apply not_elem_of_cons in Hd as [Hne Hd].
      apply NoDup_cons in Hnd as [_ Hnd].
      rewrite insert_insert_ne by done. by apply IH.
Qed.

(** X19. When the class items have distinct ids, [_prepareItems] records
    for every class item of the sheet, under its id, the level options of
    that class. *)
Theorem level_options_recorded host cfg this l ws c :
  NoDup (id <$> filter (λ i, type i = "class") l) →
  c ∈ l → type c = "class" →
  availableLevels (_prepareItems host cfg this l ws) !! id c
  = Some (level_options cfg this c).
Proof.
  intros Hnd Hc Ht.
  destruct (prepareItems_fields host cfg this l ws) as (_ & _ & -> & _).
  unfold pair_classes. rewrite pair_class_ctx, partition_items_filters.
  cbn [snd p_classes].
  apply recorded_options.
  - by rewrite sort_classes_perm.
  - rewrite sort_classes_perm. by apply list_elem_of_filter.
Qed.

Lemma filter_by_type_perm (tys : list string) (its : list item) :
  NoDup tys → Forall (λ i, type i ∈ tys) its →
  (tys ≫= λ ty, filter (λ i, type i = ty) its) ≡ₚ its.
Proof.
  revert its. induction tys as [|t ts IH]; intros its Hnd Hall.
  - destruct its as [|x its]; [done|].
    apply Forall_cons in Hall as [Hx _]. by apply elem_of_nil in Hx.
  - apply NoDup_cons in Hnd as [Ht Hnd]. cbn [mbind list_bind].
    etrans; [|apply (filter_app_complement (λ i, type i = t) its)].
    apply Permutation_app; [done|].
    rewrite <- (IH (filter (λ i, type i ≠ t) its) Hnd).
    + assert (∀ l' : list string, Forall (λ ty, ty ≠ t) l' →
                (l' ≫= λ ty, filter (λ i, type i = ty) (filter (λ i, type i ≠ t) its))
                = (l' ≫= λ ty, filter (λ i, type i = ty) its)) as Hsame.
      { induction 1 as [|ty l' Hty _ IH']; [done|]. cbn [mbind list_bind].
        f_equal; [|exact IH'].
        rewrite list_filter_filter. apply list_filter_iff.
        intros i. split; [tauto|]. intros ->. by split. }
      rewrite Hsame; [done|]. apply Forall_forall. by intros ty Hty ->.
    + apply Forall_forall. intros i [Hi Hin]%list_elem_of_filter.
      rewrite Forall_forall in Hall. specialize (Hall i Hin).
      apply elem_of_cons in Hall as [?|?]; done.
Qed.

Lemma filterItems_sublist (l : list item) fs i :
  i ∈ _filterItems l fs → i ∈ l.
Proof. unfold _filterItems. by intros [_ ?]%list_elem_of_filter. Qed.

(** X20. [context.inventory] always has the six sections in the fixed
    order of types; a section holds only items of its type; and the
    sections together hold exactly the inventory items that survive the
    filter, each once. *)
Theorem inventory_sections host cfg this l ws :
  dataset <$> inventory (_prepareItems host cfg this l ws)
    = (λ ty, [("type", ty)]) <$> inventory_types ∧
  Forall2 (λ ty b, Forall (λ i, type i = ty) (items b))
          inventory_types (inventory (_prepareItems host cfg this l ws)) ∧
  inventory_items (_prepareItems host cfg this l ws)
    ≡ₚ _filterItems (filter (λ i, type i ∈ inventory_types) l)
                    (filters_inventory this).
Proof.
  unfold inventory_items, _prepareItems. rewrite partition_items_filters.
  cbn [p_subclasses p_classes p_feats p_items p_spells p_backgrounds].
  destruct (foldl _ _ _) as [[arr subs] ctx]. cbn [inventory].
  set (its := _filterItems _ (filters_inventory this)).
  split; [done|]. split.
  - apply Forall2_fmap_r, Forall_Forall2_diag, Forall_forall.
    intros ty _. cbn. apply Forall_forall.
    by intros i [Hi _]%list_elem_of_filter.
  - etrans; [|apply (filter_by_type_perm inventory_types its)].
    + done.
    + unfold inventory_types. repeat (apply NoDup_cons; split;
        [apply (proj1 (bool_decide_eq_false _)); reflexivity|]).
      apply NoDup_nil_2.
    + apply Forall_forall. intros i Hi%filterItems_sublist.
      by apply list_elem_of_filter in Hi as [Hi _].
Qed.
End levels.

Section drop.
Import ActorSheet5eCharacter.

Lemma find_Some_elem {A : Type} (f : A → bool) (l : list A) x :
  List.find f l = Some x → x ∈ l ∧ f x = true.
Proof.
  intros [Hin Hf]%find_some. split; [by apply list_elem_of_In | done].
Qed.

Lemma find_None_Forall {A : Type} (f : A → bool) (l : list A) :
  List.find f l = None → Forall (λ x, f x = false) l.
Proof.
  intros Hn. apply Forall_forall. intros x Hx%list_elem_of_In.
  by apply (find_none f l Hn).
Qed.

(** X21. Dropping a class never takes the character beyond the maximum
    level: an error means that the dropped levels or the room left are not
    positive; in every other outcome at least one and at most the dropped
    number of levels are added, and the character level plus the added
    levels stays within [maxLevel]. An existing class is raised exactly
    when its identifier is the dropped one; a new item is created only
    when no class has it. *)
Theorem class_drop_respects_level_cap host cfg env charLevel
    classes subclasses d :
  drop_type d = "class" →
  match _onDropSingleItem host cfg env charLevel classes subclasses d with
  | DropError _ =>
      (drop_levels d ≤ 0 ∨ maxLevel cfg ≤ charLevel)%Z
  | DropAdvancement cid n =>
      (0 < n ≤ drop_levels d)%Z ∧ (charLevel + n ≤ maxLevel cfg)%Z ∧
      ∃ cls, cls ∈ classes ∧ id cls = cid ∧
             doc_identifier env cls = drop_identifier d
  | DropLevelUp cid n =>
      ∃ cls, cls ∈ classes ∧ id cls = cid ∧
             doc_identifier env cls = drop_identifier d ∧
             (levels cls < n ≤ levels cls + drop_levels d)%Z ∧
             (charLevel + (n - levels cls) ≤ maxLevel cfg)%Z
  | DropCreate d' =>
      d' = set_drop_levels (drop_levels d') d ∧
      (0 < drop_levels d' ≤ drop_levels d)%Z ∧
      (charLevel + drop_levels d' ≤ maxLevel cfg)%Z ∧
      Forall (λ c, doc_identifier env c ≠ drop_identifier d) classes
  end.
Proof.
  intros Ht. unfold _onDropSingleItem. rewrite bool_decide_eq_true_2 by done.
  cbn [set_drop_levels drop_levels drop_identifier].
  case_bool_decide as Hle; [lia|].
  destruct (List.find _ classes) as [cls|] eqn:Hfind.
  - apply find_Some_elem in Hfind as [Hin Hid].
    apply bool_decide_eq_true in Hid.
    destruct (negb (disableAdvancements env) && _).
    + split; [lia|]. split; [lia|]. by exists cls.
    + exists cls. split; [done|]. split; [done|]. split; [done|]. split; lia.
  - apply find_None_Forall in Hfind. cbn [set_drop_levels drop_levels].
    split; [done|]. split; [lia|]. split; [lia|].
    eapply Forall_impl; [exact Hfind|]. intros c Hc.
    by apply bool_decide_eq_false in Hc.
Qed.

(** X22. Dropping anything but a class never changes a level. A subclass
    is refused exactly when a subclass with its identifier exists or the
    class it belongs to, the first one with its class identifier, already
    has a subclass; whatever is accepted is handed on unchanged, as is
    every item of another type. *)
Theorem subclass_drop_guards host cfg env charLevel classes subclasses d :
  drop_type d ≠ "class" →
  match _onDropSingleItem host cfg env charLevel classes subclasses d with
  | DropCreate d' =>
      d' = d ∧
      (drop_type d = "subclass" →
       Forall (λ s, doc_identifier env s ≠ drop_identifier d) subclasses ∧
       ∀ cls, List.find (λ i, bool_decide (doc_identifier env i
                                           = drop_classIdentifier d)) classes
              = Some cls → doc_subclass env cls = None)
  | DropError _ =>
      drop_type d = "subclass" ∧
      ((∃ s, s ∈ subclasses ∧ doc_identifier env s = drop_identifier d) ∨
       (∃ cls sub, List.find (λ i, bool_decide (doc_identifier env i
                                                = drop_classIdentifier d))
                             classes = Some cls ∧
                   cls ∈ classes ∧
                   doc_identifier env cls = drop_classIdentifier d ∧
                   doc_subclass env cls = Some sub))
  | DropAdvancement _ _ | DropLevelUp _ _ => False
  end.
Proof.
  intros Ht. unfold _onDropSingleItem. rewrite bool_decide_eq_false_2 by done.
  case_bool_decide as Hs; [|by split].
  destruct (List.find _ subclasses) as [other|] eqn:Ho.
  - apply find_Some_elem in Ho as [Hin Hid]. apply bool_decide_eq_true in Hid.
    split; [done|]. left. by exists other.
  - apply find_None_Forall in Ho.
    assert (Forall (λ s, doc_identifier env s ≠ drop_identifier d) subclasses)
      as Hnone.
    { eapply Forall_impl; [exact Ho|]. intros c Hc.
      by apply bool_decide_eq_false in Hc. }
    destruct (List.find _ classes) as [cls|] eqn:Hc.
    + destruct (doc_subclass env cls) as [sub|] eqn:Hsub.
      * apply find_Some_elem in Hc as [Hin Hid].
        apply bool_decide_eq_true in Hid.
        split; [done|]. right. by exists cls, sub.
      * split; [done|]. intros _. split; [done|]. by intros cls' [= <-].
    + split; [done|]. intros _. split; [done|]. by intros cls' [=].
Qed.
End drop.

Section current.
Variable host : Host.

Lemma boolean_to_number_id key (s : gmap string JsVal) :
  typeof_is (field s key) "boolean" = false →
  (if typeof_is (field s key) "boolean"
   then <[key := JNum (Number_ host (field s key))]> s else s) = s.
Proof. by intros ->. Qed.

Lemma filter_boolean_id (props : gmap string JsVal) :
  map_Forall (λ _ v, typeof_is v "boolean" = true) props →
  filter (λ kv, typeof_is kv.2 "boolean" = true) props = props.
Proof.
  intros Hall. apply map_eq. intros k. apply option_eq. intros v.
  rewrite map_lookup_filter_Some. cbn [snd]. split; [by intros [? _]|].
  intros Hk. split; [done|]. by apply (Hall k).
Qed.

(** X23. A record whose own fields already have the current shape comes
    back from migration exactly as the inherited migrations handed it
    on. *)
Theorem current_shape_unchanged inherited k (source : gmap string JsVal) :
  current_shape k (inherited k source) →
  migrate host inherited k source = Normal (inherited k source).
Proof.
  destruct k; cbn [current_shape]; unfold migrate.
  - intros (Hp & Hb & Hw). unfold WeaponData.migrateData.
    assert (WeaponData.migratePropertiesData (inherited weapon source)
            = Normal (inherited weapon source)) as ->.
    { destruct Hp as [Hp|(props & Hp & Hall)].
      - unfold WeaponData.migratePropertiesData, field. by rewrite Hp.
      - rewrite (migratePropertiesData_object _ _ Hp).
        rewrite filter_boolean_id by done. by rewrite insert_id. }
    cbn [cbind]. unfold WeaponData.migrateProficient.
    rewrite boolean_to_number_id by done.
    unfold WeaponData.migrateWeaponType. by rewrite Hw.
  - intros (Ha & Hs & Hb). unfold EquipmentData.migrateData.
    assert (EquipmentData.migrateArmor host (inherited equipment source)
            = Normal (inherited equipment source)) as ->.
    { destruct Ha as [Ha|(armor & Ha & Hty & Hdex)].
      - unfold EquipmentData.migrateArmor. by rewrite Ha.
      - rewrite (migrateArmor_object host _ _ Ha).
        unfold renamed_type. rewrite Hty. unfold coerced_dex. rewrite Hdex.
        by rewrite insert_id. }
    cbn [cbind]. unfold EquipmentData.migrateStrength. rewrite Hs.
    cbn [negb]. unfold EquipmentData.migrateProficient.
    by rewrite boolean_to_number_id.
  - intros Ha. unfold ToolData.migrateData, ToolData.migrateAbility.
    by destruct (field (inherited tool source) "ability").
  - done.
Qed.
End current.

(** ** The further properties at concrete inputs *)

Lemma weapon_properties_only_booleans_witness :
  ∃ out props',
    migrate Sample.host Sample.inherited_idle weapon Examples.weapon_legacy
      = Normal out ∧
    out !! "properties" = Some (JObj props') ∧
    props' !! "fin" = Some (JBool true) ∧ props' !! "old" = None.
Proof.
  destruct (weapon_properties_only_booleans Sample.host Sample.inherited_idle
              Examples.weapon_legacy
              {[ "fin" := JBool true; "old" := JStr "legacy" ]} eq_refl)
    as (out & props' & E & Hp & Hk).
  exists out, props'. split; [exact E|]. split; [exact Hp|]. split.
  - apply Hk. split; [reflexivity | by exists true].
  - destruct (props' !! "old") as [v|] eqn:Hv; [|reflexivity].
    apply Hk in Hv as [Hv [b ->]]. vm_compute in Hv. discriminate Hv.
Defined.

Lemma weapon_migration_throws_iff_witness :
  migrate Sample.host Sample.inherited_idle weapon Examples.weapon_text
  = Throw TypeError.
Proof.
  apply (weapon_migration_throws_iff Sample.host Sample.inherited_idle).
  split; reflexivity.
Defined.

Lemma weapon_properties_array_holes_witness :
  ∃ out elems',
    migrate Sample.host Sample.inherited_idle weapon MoreExamples.weapon_array
      = Normal out ∧
    out !! "properties" = Some (JArr elems') ∧
    elems' !! 0%nat = Some (Some (JBool true)) ∧ elems' !! 1%nat = Some None.
Proof.
  destruct (weapon_properties_array_holes Sample.host Sample.inherited_idle
              MoreExamples.weapon_array
              [Some (JBool true); Some (JStr "ver")] eq_refl)
    as (out & elems' & E & Hp & _ & Hk).
  exists out, elems'. split; [exact E|]. split; [exact Hp|].
  split; [exact (Hk 0%nat _ eq_refl) | exact (Hk 1%nat _ eq_refl)].
Defined.

Lemma weapon_legacy_migrates :
  migrate Sample.host Sample.inherited_idle weapon Examples.weapon_legacy
  = Normal MoreExamples.weapon_current.
Proof. vm_compute. reflexivity. Qed.

Lemma equipment_legacy_migrates :
  migrate Sample.host Sample.inherited_idle equipment Examples.equipment_legacy
  = Normal MoreExamples.equipment_migrated.
Proof. vm_compute. reflexivity. Qed.

Lemma tool_flavored_migrates :
  migrate Sample.host Sample.inherited_idle tool MoreExamples.tool_flavored
  = Normal MoreExamples.tool_flavored_migrated.
Proof. vm_compute. reflexivity. Qed.

Lemma proficient_flag_becomes_number_witness :
  field MoreExamples.weapon_current "proficient" = JNum (Finite 1) ∧
  typeof_is (field MoreExamples.weapon_current "proficient") "boolean" = false.
Proof.
  exact (proficient_flag_becomes_number Sample.host Sample.inherited_idle
           weapon Examples.weapon_legacy MoreExamples.weapon_current
           (or_introl eq_refl) weapon_legacy_migrates).
Defined.

Lemma weapon_type_never_null_witness :
  MoreExamples.weapon_current !! "weaponType" = Some (JStr "simpleM").
Proof.
  exact (proj1 (proj2 (weapon_type_never_null Sample.host Sample.inherited_idle
                         Examples.weapon_legacy MoreExamples.weapon_current
                         weapon_legacy_migrates)) eq_refl).
Defined.

Lemma armor_after_migration_witness :
  ∃ armor,
    MoreExamples.equipment_migrated !! "armor" = Some armor ∧
    get_prop armor "type" = Normal (JStr "trinket").
Proof.
  destruct (proj2 (armor_after_migration Sample.host Sample.inherited_idle
                     Examples.equipment_legacy MoreExamples.equipment_migrated
                     equipment_legacy_migrates)
              (JObj {[ "type" := JStr "bonus"; "dex" := JStr "" ]}) eq_refl)
    as (armor & t & Ha & _ & _ & Ht & _ & Hb & _).
  exists armor. split; [exact Ha|].
  rewrite Ht. f_equal. exact (Hb eq_refl).
Defined.

Lemma migration_leaves_other_fields_witness :
  MoreExamples.tool_flavored_migrated !! "chatFlavor" = Some (JStr "Tinker").
Proof.
  refine (migration_leaves_other_fields Sample.host Sample.inherited_idle tool
            MoreExamples.tool_flavored MoreExamples.tool_flavored_migrated
            "chatFlavor" _ tool_flavored_migrates).
  apply (proj1 (bool_decide_eq_false _)). reflexivity.
Defined.

Lemma migration_keeps_field_names_witness :
  dom MoreExamples.weapon_current = dom Examples.weapon_legacy.
Proof.
  exact (migration_keeps_field_names Sample.host Sample.inherited_idle weapon
           Examples.weapon_legacy MoreExamples.weapon_current
           weapon_legacy_migrates).
Defined.

Lemma tool_ability_collapsed_witness :
  ∃ out,
    migrate Sample.host Sample.inherited_idle tool Examples.tool_legacy
      = Normal out ∧
    out !! "ability" = Some (JStr "str").
Proof.
  destruct (tool_ability_collapsed Sample.host Sample.inherited_idle
              Examples.tool_legacy) as (out & E & Ha & _).
  exists out. split; [exact E|].
  exact (Ha [Some (JStr "str"); Some (JStr "dex")] eq_refl).
Defined.

Lemma unowned_item_not_proficient_witness :
  proficiencyMultiplier Sample.config
    (WeaponItem (Examples.longbow Sample.unowned)) = Finite 0.
Proof.
  exact (unowned_item_not_proficient Sample.config
           (WeaponItem (Examples.longbow Sample.unowned)) eq_refl eq_refl).
Defined.

Lemma multiplier_is_zero_or_one_witness :
  proficiencyMultiplier Sample.config (Examples.claws Sample.character) = Finite 0 ∨
  proficiencyMultiplier Sample.config (Examples.claws Sample.character) = Finite 1.
Proof.
  apply multiplier_is_zero_or_one; [intros [=] | reflexivity].
Defined.

Lemma more_tags_keep_proficiency_witness :
  proficiencyMultiplier Sample.config
    (with_owner (with_more_tags {[ "sim" ]} MoreExamples.fighter)
       (WeaponItem (Examples.longbow Sample.unowned))) = Finite 1.
Proof.
  apply more_tags_keep_proficiency. vm_compute. reflexivity.
Defined.

Lemma tool_multiplier_is_higher_level_witness :
  ∃ r, proficiencyMultiplier Sample.config
         (Examples.thieves_tools (Sample.owned_by Examples.rogue)) = Finite r ∧
       Qle 2 r.
Proof.
  destruct (tool_multiplier_is_higher_level
              {| ToolData.toolType := ""; ToolData.baseItem := "thief";
                 ToolData.ability := "dex"; ToolData.proficient := None;
                 ToolData.parent := Sample.owned_by Examples.rogue |}
              Examples.rogue 2%Q 0%Q eq_refl eq_refl)
    as (r & Hr & _ & Hp & _); [intros [=] | reflexivity | reflexivity |].
  exists r. split; [exact Hr | exact Hp].
Defined.

Section sheet_witnesses2.
Import ActorSheet5eCharacter.

Lemma level_options_recorded_witness :
  availableLevels
    (_prepareItems Sample.host Sample.config Examples.sheet_at_15
       [Examples.class_A; Examples.class_B;
        Examples.subclass_S1; Examples.subclass_S2] [])
    !! "A"
  = Some (level_options Sample.config Examples.sheet_at_15 Examples.class_A).
Proof.
  apply (level_options_recorded Sample.host Sample.config Examples.sheet_at_15
           [Examples.class_A; Examples.class_B;
            Examples.subclass_S1; Examples.subclass_S2] [] Examples.class_A).
  - vm_compute. repeat constructor; rewrite ?elem_of_cons, ?elem_of_nil;
      intros H; repeat destruct H as [H|H]; try discriminate H; done.
  - apply list_elem_of_here.
  - reflexivity.
Defined.

Lemma class_drop_respects_level_cap_witness :
  ∃ cls, cls ∈ [Examples.class_A] ∧ id cls = "A" ∧
         doc_identifier MoreExamples.drop_env cls = "fighter" ∧
         (levels cls < 7 ≤ levels cls + 5)%Z ∧
         (18 + (7 - levels cls) ≤ 20)%Z.
Proof.
  exact (class_drop_respects_level_cap Sample.host Sample.config
           MoreExamples.drop_env 18 [Examples.class_A] []
           MoreExamples.fighter_drop eq_refl).
Defined.

Lemma subclass_drop_guards_witness :
  MoreExamples.evoker_drop = MoreExamples.evoker_drop ∧
  (drop_type MoreExamples.evoker_drop = "subclass" →
   Forall (λ s, doc_identifier MoreExamples.drop_env s ≠ "evoker")
          [Examples.subclass_S1] ∧
   ∀ cls, List.find (λ i, bool_decide (doc_identifier MoreExamples.drop_env i
                                       = "wizard"))
                    [Examples.class_A; Examples.class_B]
          = Some cls → doc_subclass MoreExamples.drop_env cls = None).
Proof.
  assert (drop_type MoreExamples.evoker_drop ≠ "class") as Hne by (intros [=]).
  exact (subclass_drop_guards Sample.host Sample.config
           MoreExamples.drop_env 8 [Examples.class_A; Examples.class_B]
           [Examples.subclass_S1] MoreExamples.evoker_drop Hne).
Defined.
End sheet_witnesses2.

Lemma current_shape_unchanged_witness :
  migrate Sample.host Sample.inherited_idle weapon MoreExamples.weapon_current
  = Normal MoreExamples.weapon_current.
Proof.
  apply (current_shape_unchanged Sample.host Sample.inherited_idle weapon).
  split; [|split; reflexivity].
  right. exists {[ "fin" := JBool true ]}. split; [reflexivity|].
  apply map_Forall_singleton. reflexivity.
Defined.
